(** * rag_model.py: image classification and chat-response lookup

    A shallow embedding of the two functions of [rag_model.py],
    [analyze_maize_image] and [get_rag_response], and of the two callbacks
    of [app.py] that call them, [update_image_upload] and [update_chat],
    together with the fragments of Python they rely on: dynamically typed
    values, exceptions caught by [try ... except Exception], [print],
    substring tests with [in], [split], [join] and insertion-ordered
    dictionaries.

    A Python [str] is represented by its UTF-8 encoding, one [ascii] per
    byte.  UTF-8 is self-synchronising, so concatenation, [join] and the
    substring test on encodings agree with the same operations on code
    points.  [str.lower] is a built-in whose Unicode tables are not part
    of the program: it is a parameter of the development, and
    [ascii_lower] is the function it coincides with on ASCII text. *)

From Stdlib Require Import String Ascii List Bool ZArith Floats Lia DecimalString.
Import ListNotations.
Open Scope string_scope.
Set Warnings "-inexact-float".

(** ** Python values and exceptions *)

#[warnings="-register-all"]
Inductive PyVal : Type :=
| PyNone
| PyBool (b : bool)
| PyInt (z : Z)
| PyFloat (f : float)
| PyStr (s : string)
| PyBytes (b : string)
| PyList (l : list PyVal)
| PyDict (d : list (string * PyVal)).

(** A dictionary with string keys, in insertion order. *)
Definition Dict : Type := list (string * PyVal).

(** A raised object: its class name, whether the class derives from
    [Exception] (and is therefore caught by [except Exception]), and the
    text [str(e)]. *)
Record PyExn : Type := mkExn
  { exn_class : string;
    exn_is_Exception : bool;
    exn_str : string }.

Definition AttributeError (msg : string) : PyExn := mkExn "AttributeError" true msg.
Definition TypeError (msg : string) : PyExn := mkExn "TypeError" true msg.
Definition KeyError (msg : string) : PyExn := mkExn "KeyError" true msg.

(** The result of evaluating an expression or a block: a value, or a
    raised exception that unwinds the block. *)
Inductive Res (A : Type) : Type :=
| Ok (a : A)
| Raise (e : PyExn).
Arguments Ok {A} a.
Arguments Raise {A} e.

Definition bind {A B : Type} (c : Res A) (k : A -> Res B) : Res B :=
  match c with
  | Ok a => k a
  | Raise e => Raise e
  end.

Notation "x <- c ;; k" := (bind c (fun x => k))
  (at level 61, c at next level, right associativity).

(** What a call leaves behind: the lines written by [print] and either the
    returned value or the exception that escapes to the caller. *)
Record Outcome (A : Type) : Type := mkOutcome
  { stdout : list string;
    returned : Res A }.
Arguments mkOutcome {A} stdout returned.
Arguments stdout {A} o.
Arguments returned {A} o.

(** [try: body  except Exception as e: handler(e)].  An exception whose
    class does not derive from [Exception] is not caught. *)
Definition try_except_Exception {A : Type}
    (body : Res A) (handler : PyExn -> Outcome A) : Outcome A :=
  match body with
  | Ok a => mkOutcome [] (Ok a)
  | Raise e => if exn_is_Exception e then handler e else mkOutcome [] (Raise e)
  end.

(** ** Strings *)

(** [s.startswith(p)]. *)
Fixpoint startswith (s p : string) {struct p} : bool :=
  match p, s with
  | EmptyString, _ => true
  | String a p', String b s' => Ascii.eqb a b && startswith s' p'
  | String _ _, EmptyString => false
  end.

(** [p in s] for two strings: [p] occurs in [s] as a contiguous block. *)
Fixpoint str_in (p s : string) : bool :=
  match s with
  | EmptyString => startswith s p
  | String _ s' => startswith s p || str_in p s'
  end.

(** [sep.join(l)]. *)
Definition join (sep : string) (l : list string) : string := String.concat sep l.

(** Lowercasing of ASCII letters, the behaviour of [bytes.lower] and of
    [str.lower] on ASCII text. *)
Definition ascii_lower_char (c : ascii) : ascii :=
  let n := nat_of_ascii c in
  if (65 <=? n)%nat && (n <=? 90)%nat then ascii_of_nat (n + 32) else c.

Fixpoint ascii_lower (s : string) : string :=
  match s with
  | EmptyString => EmptyString
  | String c s' => String (ascii_lower_char c) (ascii_lower s')
  end.

(** ** Dictionaries *)

(** [d.get(k)]: the value bound to [k], if any. *)
Fixpoint dict_get {V : Type} (k : string) (d : list (string * V)) : option V :=
  match d with
  | [] => None
  | (k', v) :: d' => if String.eqb k k' then Some v else dict_get k d'
  end.

(** [d[k]], which raises [KeyError] on a missing key. *)
Definition getitem {V : Type} (d : list (string * V)) (k : string) : Res V :=
  match dict_get k d with
  | Some v => Ok v
  | None => Raise (KeyError ("'" ++ k ++ "'"))
  end.

(** [any(k in text for k in keywords)]. *)
Definition any_in (keywords : list string) (text : string) : bool :=
  existsb (fun indicator => str_in indicator text) keywords.

(** ** Dynamic operations on values *)

Definition type_name (v : PyVal) : string :=
  match v with
  | PyNone => "NoneType"
  | PyBool _ => "bool"
  | PyInt _ => "int"
  | PyFloat _ => "float"
  | PyStr _ => "str"
  | PyBytes _ => "bytes"
  | PyList _ => "list"
  | PyDict _ => "dict"
  end.

Definition is_str (v : PyVal) (k : string) : bool :=
  match v with
  | PyStr s => String.eqb s k
  | _ => false
  end.

(** [key in container] where [key] is a [str]. *)
Definition py_contains (key : string) (container : PyVal) : Res bool :=
  match container with
  | PyStr s => Ok (str_in key s)
  | PyBytes _ => Raise (TypeError "a bytes-like object is required, not 'str'")
  | PyList l => Ok (existsb (fun x => is_str x key) l)
  | PyDict d => Ok (existsb (fun kv => String.eqb (fst kv) key) d)
  | _ => Raise (TypeError ("argument of type '" ++ type_name container
                            ++ "' is not iterable"))
  end.

(** ** The vision service's answer *)

Module Azure.

Record ImageTag : Type := mkImageTag
  { name : string;
    confidence : float }.

Record ImageCaption : Type := mkImageCaption
  { text : string;
    caption_confidence : float }.

Record ImageDescriptionDetails : Type := mkImageDescriptionDetails
  { captions : list ImageCaption }.

Record ImageAnalysis : Type := mkImageAnalysis
  { tags : list ImageTag;
    description : ImageDescriptionDetails;
    request_id : string }.

End Azure.

(** ** The canned data of [rag_model.py] *)

Definition disease_indicators : list (string * list string) :=
  [ ("spotted", ["spot"; "spots"; "spotted"; "lesion"; "lesions"; "brown"; "yellow"]);
    ("blighted", ["blight"; "blighted"; "wilted"; "dying"; "diseased"; "disease"; "infected"]) ].

Definition health_sentence : string :=
  "The maize crop is showing good health metrics with optimal pH and humidity levels.".
Definition water_sentence : string :=
  "Current water levels are at 85%, which is within the optimal range for maize growth.".
Definition nutrients_sentence : string :=
  "Nutrient levels are at 72%. Consider adjusting nutrient delivery in the next 24 hours.".
Definition growth_sentence : string :=
  "The maize is growing at an optimal rate based on current environmental conditions.".
Definition temperature_sentence : string :=
  "Temperature is maintained at 23.5°C, which is ideal for maize cultivation.".

Definition responses : list (string * string) :=
  [ ("health", health_sentence);
    ("water", water_sentence);
    ("nutrients", nutrients_sentence);
    ("growth", growth_sentence);
    ("temperature", temperature_sentence) ].

Definition default_response : string :=
  "I can help you with information about maize health, water levels, nutrients, growth, and temperature. What would you like to know?".

Definition apology : string :=
  "I apologize, but I'm having trouble processing your request.".

(** ** The classifier's decision (lines 39-60)

    The label and the confidence assigned to the search string; the first
    two bindings are the initial assignments, overwritten in every branch. *)
Definition classify (text_to_check : string) : Res (string * float) :=
  let health_status := "Healthy" in
  let confidence := 0.0%float in
  blighted <- getitem disease_indicators "blighted" ;;
  if any_in blighted text_to_check then
    let health_status := "Blighted" in
    let confidence := 0.99%float in
    Ok (health_status, confidence)
  else
    spotted <- getitem disease_indicators "spotted" ;;
    if any_in spotted text_to_check then
      let health_status := "Spotted" in
      let confidence := 0.99%float in
      Ok (health_status, confidence)
    else
      let health_status := "Healthy" in
      let confidence := 0.99%float in
      Ok (health_status, confidence).

(** [for key, response in items: if key in message: return response]; the
    result is [None] when the loop falls through. *)
Fixpoint first_match (items : list (string * string)) (message : PyVal)
  : Res (option string) :=
  match items with
  | [] => Ok None
  | (key, response) :: rest =>
      hit <- py_contains key message ;;
      if hit then Ok (Some response) else first_match rest message
  end.

Section Program.

(** The built-in [str.lower]. *)
Variable str_lower : string -> string.

(** The method call [v.lower()]. *)
Definition py_lower (v : PyVal) : Res PyVal :=
  match v with
  | PyStr s => Ok (PyStr (str_lower s))
  | PyBytes b => Ok (PyBytes (ascii_lower b))
  | _ => Raise (AttributeError ("'" ++ type_name v
                                ++ "' object has no attribute 'lower'"))
  end.

(** *** [get_rag_response] (lines 81-104) *)

Definition get_rag_response_body (user_message context : PyVal) : Res string :=
  message <- py_lower user_message ;;
  found <- first_match responses message ;;
  match found with
  | Some response => Ok response
  | None => Ok default_response
  end.

Definition get_rag_response (user_message context : PyVal) : Outcome string :=
  try_except_Exception
    (get_rag_response_body user_message context)
    (fun e => mkOutcome ["Error generating response: " ++ exn_str e] (Ok apology)).

(** *** [analyze_maize_image] (lines 18-79) *)

(** The image type of the imaging library, its JPEG encoder
    ([image.save(buffer, format='JPEG')], giving the bytes written) and the
    vision client's [analyze_image_in_stream]. *)
Variable Image : Type.
Variable save : Image -> Res string.
Variable analyze_image_in_stream : string -> Res Azure.ImageAnalysis.

(** Line 36. *)
Definition tags_of (analysis : Azure.ImageAnalysis) : list string :=
  map (fun tag => str_lower (Azure.name tag)) (Azure.tags analysis).

(** Line 37: the text of the first caption, or the empty string. *)
Definition description_of (analysis : Azure.ImageAnalysis) : string :=
  match Azure.captions (Azure.description analysis) with
  | c :: _ => Azure.text c
  | [] => ""
  end.

(** Line 50. *)
Definition text_to_check_of (analysis : Azure.ImageAnalysis) : string :=
  join " " (tags_of analysis ++ [str_lower (description_of analysis)]).

Definition analyze_maize_image_body (image : Image) : Res Dict :=
  img_byte_array <- save image ;;
  analysis <- analyze_image_in_stream img_byte_array ;;
  let tags := tags_of analysis in
  let description := description_of analysis in
  let text_to_check := text_to_check_of analysis in
  verdict <- classify text_to_check ;;
  let '(health_status, confidence) := verdict in
  let result :=
    [ ("success", PyBool true);
      ("health_status", PyStr health_status);
      ("confidence", PyFloat confidence);
      ("description", PyStr ("Leaf appears to be " ++ str_lower health_status));
      ("tags", PyList (map PyStr tags));
      ("raw_description", PyStr description) ] in
  Ok result.

Definition analyze_maize_image (image : Image) : Outcome Dict :=
  try_except_Exception
    (analyze_maize_image_body image)
    (fun e => mkOutcome ["Error analyzing image: " ++ exn_str e]
                (Ok [ ("success", PyBool false);
                      ("error", PyStr (exn_str e)) ])).

End Program.

Arguments analyze_maize_image str_lower {Image} save analyze_image_in_stream image.
Arguments analyze_maize_image_body str_lower {Image} save analyze_image_in_stream image.

(** ** Sample environments

    Stand-ins for the encoder and the vision service, used to run the
    classifier on concrete answers. *)

Definition encoder_ok (image : string) : Res string := Ok image.

Definition encoder_failing (e : PyExn) (image : string) : Res string := Raise e.

Definition service_returning (analysis : Azure.ImageAnalysis) (stream : string)
  : Res Azure.ImageAnalysis := Ok analysis.

Definition service_failing (e : PyExn) (stream : string)
  : Res Azure.ImageAnalysis := Raise e.

Definition make_analysis (tag_names : list string) (caption_texts : list string)
  : Azure.ImageAnalysis :=
  Azure.mkImageAnalysis
    (map (fun n => Azure.mkImageTag n 0.5%float) tag_names)
    (Azure.mkImageDescriptionDetails
       (map (fun t => Azure.mkImageCaption t 0.5%float) caption_texts))
    "00000000-0000-0000-0000-000000000000".

(** A spot keyword in the tags, a blight keyword later in the caption. *)
Definition yellow_then_blight : Azure.ImageAnalysis :=
  make_analysis ["Plant"; "Yellow"; "leaf"] ["a leaf with Blight on a table"].

Definition brown_lesions : Azure.ImageAnalysis :=
  make_analysis ["plant"; "Brown"] ["a close up of a leaf"].

Definition green_leaf : Azure.ImageAnalysis :=
  make_analysis ["plant"; "green"; "leaf"] ["a close up of a green leaf"].

(** No caption at all; the only keyword sits in a tag. *)
Definition wilted_no_caption : Azure.ImageAnalysis :=
  make_analysis ["plant"; "wilted"] [].

(** The answer [green_leaf] once more, as a second call may give it: the same
    tag names and caption, other confidences and another request id. *)
Definition green_leaf_again : Azure.ImageAnalysis :=
  Azure.mkImageAnalysis
    [ Azure.mkImageTag "plant" 0.75%float;
      Azure.mkImageTag "green" 0.25%float;
      Azure.mkImageTag "leaf" 0.125%float ]
    (Azure.mkImageDescriptionDetails
       [ Azure.mkImageCaption "a close up of a green leaf" 0.875%float ])
    "11111111-1111-1111-1111-111111111111".

Definition invalid_credential : PyExn :=
  mkExn "ComputerVisionErrorException" true
        "Operation returned an invalid status code 'PermissionDenied'".

Definition cannot_write_mode : PyExn :=
  mkExn "OSError" true "cannot write mode RGBA as JPEG".

(** * app.py: the callbacks around the two functions

    [update_image_upload] and [update_chat] are the callers of
    [analyze_maize_image] and [get_rag_response].  A component of the
    page is a tree: an element with its children, its keyword properties and
    its [style] dictionary; a child is a Python value (a string, [None]),
    a list of children or a component. *)

(** ** More of Python *)

Definition ValueError (msg : string) : PyExn := mkExn "ValueError" true msg.

(** [dash.exceptions.PreventUpdate], a subclass of [Exception]. *)
Definition PreventUpdate : PyExn := mkExn "PreventUpdate" true "".

(** The truth value of an object, as [if v] and [not v] test it. *)
Definition truthy (v : PyVal) : bool :=
  match v with
  | PyNone => false
  | PyBool b => b
  | PyInt z => negb (Z.eqb z 0)
  | PyFloat f => negb (PrimFloat.eqb f 0%float)
  | PyStr s => negb (String.eqb s "")
  | PyBytes b => negb (String.eqb b "")
  | PyList l => match l with [] => false | _ :: _ => true end
  | PyDict d => match d with [] => false | _ :: _ => true end
  end.

Definition str_of_nat (n : nat) : string := NilEmpty.string_of_uint (Nat.to_uint n).

(** [s.split(c)] for a separator of one character. *)
Fixpoint split_char (c : ascii) (s : string) : list string :=
  match s with
  | EmptyString => [""]
  | String a s' =>
      if Ascii.eqb a c then "" :: split_char c s'
      else match split_char c s' with
           | x :: xs => String a x :: xs
           | [] => [String a ""]
           end
  end.

(** [v.split(',')]. *)
Definition py_split_comma (v : PyVal) : Res (list string) :=
  match v with
  | PyStr s => Ok (split_char "," s)
  | PyBytes _ => Raise (TypeError "a bytes-like object is required, not 'str'")
  | _ => Raise (AttributeError ("'" ++ type_name v
                                ++ "' object has no attribute 'split'"))
  end.

(** [a, b = l]. *)
Definition unpack2 {A : Type} (l : list A) : Res (A * A) :=
  match l with
  | [a; b] => Ok (a, b)
  | _ :: _ :: _ :: _ => Raise (ValueError "too many values to unpack (expected 2)")
  | _ => Raise (ValueError ("not enough values to unpack (expected 2, got "
                            ++ str_of_nat (List.length l) ++ ")"))
  end.

(** [d.get(key, default)] on a dictionary with string keys: a key of
    another hashable type is bound to nothing, a list or a dictionary is not
    hashable. *)
Definition dict_get_or (d : list (string * string)) (key : PyVal) (default : string)
  : Res string :=
  match key with
  | PyStr k => Ok (match dict_get k d with Some v => v | None => default end)
  | PyList _ | PyDict _ =>
      Raise (TypeError ("unhashable type: '" ++ type_name key ++ "'"))
  | _ => Ok default
  end.

(** The characters of a string: a byte that is not a continuation byte of
    the encoding starts a character. *)
Definition is_continuation (c : ascii) : bool :=
  let n := nat_of_ascii c in (128 <=? n)%nat && (n <=? 191)%nat.

Fixpoint utf8_chars (s : string) : list string :=
  match s with
  | EmptyString => []
  | String c s' =>
      match s' with
      | String d _ =>
          if is_continuation d then
            match utf8_chars s' with
            | x :: xs => String c x :: xs
            | [] => [String c ""]
            end
          else String c "" :: utf8_chars s'
      | EmptyString => [String c ""]
      end
  end.

(** The items of a list as strings, for [join]; [i] is the index of the
    first item. *)
Fixpoint str_items (i : nat) (l : list PyVal) : Res (list string) :=
  match l with
  | [] => Ok []
  | PyStr s :: l' => rest <- str_items (S i) l' ;; Ok (s :: rest)
  | v :: _ => Raise (TypeError ("sequence item " ++ str_of_nat i
                                ++ ": expected str instance, "
                                ++ type_name v ++ " found"))
  end.

(** [sep.join(v)]: [v] is iterated; a dictionary gives its keys, a string
    its characters, bytes give integers. *)
Definition py_join (sep : string) (v : PyVal) : Res string :=
  match v with
  | PyList l => items <- str_items 0 l ;; Ok (join sep items)
  | PyStr s => Ok (join sep (utf8_chars s))
  | PyDict d => Ok (join sep (map fst d))
  | PyBytes EmptyString => Ok ""
  | PyBytes (String _ _) =>
      Raise (TypeError "sequence item 0: expected str instance, int found")
  | _ => Raise (TypeError "can only join an iterable")
  end.

(** Effects in sequence: the printed lines accumulate, an exception stops
    the block. *)
Definition ret {A : Type} (a : A) : Outcome A := mkOutcome [] (Ok a).

Definition lift {A : Type} (r : Res A) : Outcome A := mkOutcome [] r.

Definition obind {A B : Type} (o : Outcome A) (k : A -> Outcome B) : Outcome B :=
  match returned o with
  | Ok a => mkOutcome (stdout o ++ stdout (k a))%list (returned (k a))
  | Raise e => mkOutcome (stdout o) (Raise e)
  end.

Notation "x <~ c ;; k" := (obind c (fun x => k))
  (at level 61, c at next level, right associativity).

(** [try ... except Exception as e] around a block that may print. *)
Definition try_except_Exception_io {A : Type}
    (body : Outcome A) (handler : PyExn -> Outcome A) : Outcome A :=
  match returned body with
  | Ok _ => body
  | Raise e =>
      if exn_is_Exception e
      then mkOutcome (stdout body ++ stdout (handler e))%list (returned (handler e))
      else body
  end.

(** ** Components *)

#[warnings="-register-all"]
Inductive Component : Type :=
| CVal (v : PyVal)
| CList (l : list Component)
| Html (tag : string) (children : Component)
       (props : list (string * PyVal)) (style : list (string * string)).

(** ** The data of [app.py] *)

Definition get_inventory_data : PyVal :=
  PyDict
    [ ("crops",
       PyList [ PyDict [ ("name", PyStr "Maize"); ("quantity", PyInt 150);
                         ("unit", PyStr "kg"); ("status", PyStr "optimal") ] ]);
      ("resources",
       PyList [ PyDict [("name", PyStr "Water"); ("level", PyInt 85); ("unit", PyStr "%")];
                PyDict [("name", PyStr "Nutrients"); ("level", PyInt 72); ("unit", PyStr "%")];
                PyDict [("name", PyStr "Growing Medium"); ("level", PyInt 90); ("unit", PyStr "%")] ]) ].

Definition get_plant_health_data : PyVal :=
  PyDict
    [ ("current_metrics",
       PyList [ PyDict [ ("plant", PyStr "Maize"); ("health", PyInt 92);
                         ("pH", PyFloat 6.2%float); ("humidity", PyInt 65);
                         ("temperature", PyFloat 23.5%float) ] ]);
      ("optimal_ranges",
       PyDict [ ("pH", PyDict [("min", PyFloat 5.5%float); ("max", PyFloat 6.5%float)]);
                ("humidity", PyDict [("min", PyInt 60); ("max", PyInt 75)]);
                ("temperature", PyDict [("min", PyInt 20); ("max", PyInt 26)]) ]) ].

Definition get_system_status : PyVal :=
  PyDict
    [ ("components",
       PyList [ PyDict [ ("name", PyStr "Irrigation System");
                         ("status", PyStr "operational"); ("efficiency", PyInt 95) ];
                PyDict [ ("name", PyStr "Climate Control");
                         ("status", PyStr "operational"); ("efficiency", PyInt 88) ];
                PyDict [ ("name", PyStr "Soil Monitoring");
                         ("status", PyStr "operational"); ("efficiency", PyInt 94) ];
                PyDict [ ("name", PyStr "Nutrient Delivery");
                         ("status", PyStr "maintenance_required"); ("efficiency", PyInt 82) ] ]);
      ("alerts",
       PyList [ PyDict [("type", PyStr "info"); ("message", PyStr "Maize growth rate optimal")];
                PyDict [ ("type", PyStr "warning");
                         ("message", PyStr "Nutrient levels need adjustment in 24 hours") ];
                PyDict [ ("type", PyStr "info");
                         ("message", PyStr "Soil moisture at recommended levels") ] ]) ].

Definition inventory : PyVal := get_inventory_data.
Definition plant_health : PyVal := get_plant_health_data.
Definition system_status : PyVal := get_system_status.

Definition CUSTOM_STYLE : list (string * string) :=
  [ ("background", "#1a1a1a");
    ("text", "#ffffff");
    ("accent", "#00ff9d");
    ("card", "#2d2d2d");
    ("font-family", "Orbitron, sans-serif") ].

(** [html.Strong(label, style={'color': CUSTOM_STYLE['accent']})]. *)
Definition accent_label (label : string) : Res Component :=
  accent <- getitem CUSTOM_STYLE "accent" ;;
  Ok (Html "Strong" (CVal (PyStr label)) [] [("color", accent)]).

(** The colour table of the health labels (lines 578-582). *)
Definition status_colors : list (string * string) :=
  [ ("Healthy", "#00ff9d");
    ("Spotted", "#ffae00");
    ("Blighted", "#ff0000") ].

Section App.

Variable str_lower : string -> string.
Variable Image : Type.
Variable save : Image -> Res string.
Variable analyze_image_in_stream : string -> Res Azure.ImageAnalysis.

(** The library functions of [update_image_upload]: [base64.b64decode],
    [Image.open(BytesIO(decoded))], [format(x, '.1%')] for a float [x] and
    the conversion [float(n)] of an integer, which can overflow. *)
Variable b64decode : string -> Res string.
Variable image_open : string -> Res Image.
Variable format_percent_1 : float -> string.
Variable float_of_int : Z -> Res float.

(** [f"{v:.1%}"]. *)
Definition py_format_percent_1 (v : PyVal) : Res string :=
  match v with
  | PyFloat f => Ok (format_percent_1 f)
  | PyInt z => f <- float_of_int z ;; Ok (format_percent_1 f)
  | PyBool b => f <- float_of_int (Z.b2z b) ;; Ok (format_percent_1 f)
  | PyStr _ => Raise (ValueError "Unknown format code '%' for object of type 'str'")
  | _ => Raise (TypeError ("unsupported format string passed to "
                           ++ type_name v ++ ".__format__"))
  end.

(** *** [update_image_upload] (lines 562-641) *)

(** The lines shown for a result with a true [success] (lines 576-602). *)
Definition success_text (analysis_result : Dict) : Res (list Component) :=
  health_status <- getitem analysis_result "health_status" ;;
  accent <- getitem CUSTOM_STYLE "accent" ;;
  status_color <- dict_get_or status_colors health_status accent ;;
  label1 <- accent_label "Health Status: " ;;
  health_status <- getitem analysis_result "health_status" ;;
  label2 <- accent_label "Confidence: " ;;
  confidence <- getitem analysis_result "confidence" ;;
  percent <- py_format_percent_1 confidence ;;
  label3 <- accent_label "Analysis: " ;;
  description <- getitem analysis_result "description" ;;
  label4 <- accent_label "Detected Features: " ;;
  tags <- getitem analysis_result "tags" ;;
  features <- py_join ", " tags ;;
  Ok [ Html "Div"
         (CList [ label1;
                  Html "Span" (CVal health_status) []
                       [("color", status_color); ("fontWeight", "bold")] ]) [] [];
       Html "Div" (CList [label2; Html "Span" (CVal (PyStr percent)) [] []]) [] [];
       Html "Div" (CList [label3; Html "Span" (CVal description) [] []]) [] [];
       Html "Div" (CList [label4; Html "Span" (CVal (PyStr features)) [] []]) [] [] ].

(** The line shown for a result with a false [success] (lines 603-609). *)
Definition failure_text (analysis_result : Dict) : Res (list Component) :=
  error <- getitem analysis_result "error" ;;
  Ok [ Html "Div"
         (CList [ Html "Strong" (CVal (PyStr "Error: ")) [] [("color", "#ff0000")];
                  Html "Span" (CVal error) [] [] ]) [] [] ].

(** The returned component (lines 611-634). *)
Definition result_view (contents : PyVal) (analysis_text : list Component)
  : Res Component :=
  accent <- getitem CUSTOM_STYLE "accent" ;;
  text <- getitem CUSTOM_STYLE "text" ;;
  Ok (Html "Div"
        (CList [ Html "Img" (CVal PyNone) [("src", contents)]
                      [ ("maxWidth", "400px");
                        ("maxHeight", "400px");
                        ("marginBottom", "20px");
                        ("borderRadius", "10px");
                        ("border", "2px solid " ++ accent);
                        ("boxShadow", "0 0 10px rgba(0,255,157,0.3)") ];
                 Html "Div" (CList analysis_text) []
                      [ ("backgroundColor", "#1E1E1E");
                        ("padding", "15px");
                        ("borderRadius", "8px");
                        ("marginTop", "10px");
                        ("color", text);
                        ("fontSize", "0.9rem");
                        ("lineHeight", "1.5") ] ])
        []
        [ ("textAlign", "center"); ("marginBottom", "20px") ]).

(** The component returned by the handler (lines 636-641). *)
Definition error_view (e : PyExn) : Component :=
  Html "Div"
    (CList [ Html "Strong" (CVal (PyStr "Error: ")) [] [("color", "#ff0000")];
             Html "Span" (CVal (PyStr (exn_str e))) [] [] ])
    [] [].

Definition update_image_upload_body (contents : PyVal) : Outcome Component :=
  parts <~ lift (pieces <- py_split_comma contents ;; unpack2 pieces) ;;
  let '(content_type, content_string) := parts in
  decoded <~ lift (b64decode content_string) ;;
  image <~ lift (image_open decoded) ;;
  analysis_result <~ analyze_maize_image str_lower save analyze_image_in_stream image ;;
  success <~ lift (getitem analysis_result "success") ;;
  analysis_text <~ lift (if truthy success
                         then success_text analysis_result
                         else failure_text analysis_result) ;;
  lift (result_view contents analysis_text).

Definition update_image_upload (contents : PyVal) : Outcome Component :=
  match contents with
  | PyNone => lift (Raise PreventUpdate)
  | _ =>
      try_except_Exception_io
        (update_image_upload_body contents)
        (fun e => mkOutcome ["Error: " ++ exn_str e] (Ok (error_view e)))
  end.

(** *** [update_chat] (lines 652-683) *)

(** One entry of the chat history: the speaker in the accent colour, then
    what was said. *)
Definition chat_entry (speaker : string) (said : PyVal) : Res Component :=
  accent <- getitem CUSTOM_STYLE "accent" ;;
  Ok (Html "Div"
        (CList [ Html "Span" (CVal (PyStr speaker)) []
                      [("color", accent); ("fontWeight", "bold")];
                 Html "Span" (CVal said) [] [] ])
        []
        [("marginBottom", "10px")]).

(** [triggered] is [dash.callback_context.triggered]. *)
Definition update_chat (triggered : list PyVal)
    (n_clicks n_submit input_value : PyVal) (chat_history : option (list Component))
  : Outcome (list Component * string) :=
  if negb (truthy (PyList triggered)) || negb (truthy input_value) then
    lift (Raise PreventUpdate)
  else
    let chat_history :=
      match chat_history with
      | None => []
      | Some history => history
      end in
    user_entry <~ lift (chat_entry "You: " input_value) ;;
    let chat_history := (chat_history ++ [user_entry])%list in
    let context :=
      PyDict [ ("inventory", inventory);
               ("plant_health", plant_health);
               ("system_status", system_status) ] in
    response <~ get_rag_response str_lower input_value context ;;
    assistant_entry <~ lift (chat_entry "Farm Assistant: " (PyStr response)) ;;
    let chat_history := (chat_history ++ [assistant_entry])%list in
    ret (chat_history, "").

End App.

Arguments update_image_upload str_lower {Image} save analyze_image_in_stream
  b64decode image_open format_percent_1 float_of_int contents.
Arguments update_image_upload_body str_lower {Image} save analyze_image_in_stream
  b64decode image_open format_percent_1 float_of_int contents.

(** ** Sample environments of the callbacks *)

(** Stand-ins for the decoder, the image reader and the two numeric
    built-ins: the payload is its own decoding and its own image. *)
Definition decoder_ok (payload : string) : Res string := Ok payload.

Definition reader_ok (bytes : string) : Res string := Ok bytes.

Definition reader_failing (e : PyExn) (bytes : string) : Res string := Raise e.

Definition percent_of (f : float) : string :=
  if PrimFloat.eqb f 0.99%float then "99.0%" else "?".

Definition float_of_small_int (z : Z) : Res float :=
  Ok (if Z.eqb z 0 then 0%float else 1%float).

Definition cannot_identify : PyExn :=
  mkExn "UnidentifiedImageError" true "cannot identify image file".

Definition keyboard_interrupt : PyExn := mkExn "KeyboardInterrupt" false "".

(** Two answers that differ in letter case and in a second caption only. *)
Definition loud_leaf : Azure.ImageAnalysis :=
  make_analysis ["PLANT"; "Yellow"] ["A Leaf With SPOTS"; "a plant on a table"].

Definition quiet_leaf : Azure.ImageAnalysis :=
  make_analysis ["plant"; "yellow"] ["a leaf with spots"].


(** * Properties *)

(** ** The substring test *)

Lemma append_empty_r (s : string) : s ++ "" = s.
Proof. induction s as [|c s IH]; simpl; [reflexivity | now rewrite IH]. Qed.

Lemma append_assoc (s t u : string) : (s ++ t) ++ u = s ++ t ++ u.
Proof. induction s as [|c s IH]; simpl; [reflexivity | now rewrite IH]. Qed.

Lemma startswith_spec (s p : string) :
  startswith s p = true <-> exists b, s = p ++ b.
Proof.
  revert s; induction p as [|a p IH]; intros s; simpl.
  - split; [intros _; now exists s | reflexivity].
  - destruct s as [|c s].
    + split; [discriminate | intros [b Hb]; discriminate].
    + rewrite andb_true_iff, Ascii.eqb_eq, IH. split.
      * intros [-> [b ->]]. now exists b.
      * intros [b Hb]. injection Hb as -> ->. split; [reflexivity | now exists b].
Qed.

Lemma str_in_spec (p s : string) :
  str_in p s = true <-> exists a b, s = a ++ p ++ b.
Proof.
  induction s as [|c s IH].
  - cbn [str_in]. rewrite startswith_spec. split.
    + intros [b Hb]. now exists "", b.
    + intros [a [b Hab]]. destruct a; [now exists b | discriminate].
  - cbn [str_in]. rewrite orb_true_iff, startswith_spec, IH. split.
    + intros [[b Hb] | [a [b Hab]]].
      * now exists "", b.
      * exists (String c a), b. simpl. now rewrite Hab.
    + intros [a [b Hab]]. destruct a as [|d a].
      * left. now exists b.
      * right. simpl in Hab. injection Hab as _ ->. now exists a, b.
Qed.

Lemma str_in_app_l (p s t : string) :
  str_in p s = true -> str_in p (s ++ t) = true.
Proof.
  rewrite !str_in_spec. intros [a [b ->]].
  exists a, (b ++ t). now rewrite !append_assoc.
Qed.

Lemma str_in_app_r (p s t : string) :
  str_in p t = true -> str_in p (s ++ t) = true.
Proof.
  rewrite !str_in_spec. intros [a [b ->]].
  exists (s ++ a), b. now rewrite !append_assoc.
Qed.

(** Splitting a string that ends with a given character. *)
Lemma append_last_split (c : ascii) (x y z : string) :
  x ++ String c "" = y ++ z -> z <> "" ->
  exists z', z = z' ++ String c "" /\ x = y ++ z'.
Proof.
  revert x; induction y as [|d y IH]; intros x H Hz; simpl in H.
  - exists x. now split.
  - destruct x as [|e x]; simpl in H.
    + injection H as _ H. destruct y; destruct z; simpl in H; congruence.
    + injection H as -> H. destruct (IH x H Hz) as [z' [-> ->]].
      now exists z'.
Qed.

(** A separator appended to the text creates no occurrence of a keyword
    that does not itself contain the separator. *)
Lemma str_in_trailing (c : ascii) (k s : string) :
  k <> "" -> str_in (String c "") k = false ->
  str_in k (s ++ String c "") = str_in k s.
Proof.
  intros Hk Hc.
  destruct (str_in k s) eqn:Hs.
  - now apply str_in_app_l.
  - destruct (str_in k (s ++ String c "")) eqn:Ht; [|reflexivity].
    apply str_in_spec in Ht. destruct Ht as [a [b Hab]].
    destruct b as [|e b].
    + rewrite append_empty_r in Hab.
      destruct (append_last_split c s a k Hab Hk) as [k' [-> _]].
      assert (str_in (String c "") (k' ++ String c "") = true) as Hin.
      { apply str_in_app_r. simpl. now rewrite Ascii.eqb_refl. }
      congruence.
    + rewrite <- append_assoc in Hab.
      destruct (append_last_split c s (a ++ k) (String e b) Hab) as [b' [_ ->]];
        [discriminate|].
      assert (str_in k ((a ++ k) ++ b') = true) as Hin.
      { apply str_in_spec. exists a, b'. now rewrite append_assoc. }
      congruence.
Qed.

(** [join] over a list extended by an empty last element. *)
Lemma join_snoc_empty (sep : string) (l : list string) :
  l <> [] -> join sep (l ++ [""]) = join sep l ++ sep.
Proof.
  unfold join. induction l as [|x l IH]; [congruence|]. intros _.
  destruct l as [|y l].
  - simpl. now rewrite append_empty_r.
  - change (String.concat sep ((x :: y :: l) ++ [""]))
      with (x ++ sep ++ String.concat sep ((y :: l) ++ [""])).
    rewrite IH by discriminate.
    change (String.concat sep (x :: y :: l))
      with (x ++ sep ++ String.concat sep (y :: l)).
    now rewrite !append_assoc.
Qed.

(** ** Response lookup *)

(** On a string the loop is a search for the first key that occurs in it. *)
Lemma first_match_str (items : list (string * string)) (m : string) :
  first_match items (PyStr m)
  = Ok (option_map snd (find (fun kv => str_in (fst kv) m) items)).
Proof.
  induction items as [|[key response] rest IH]; simpl; [reflexivity|].
  destruct (str_in key m); [reflexivity | exact IH].
Qed.

(** On a string the body of [get_rag_response] raises nothing. *)
Lemma get_rag_response_body_str (lower : string -> string) (s : string) (ctx : PyVal) :
  get_rag_response_body lower (PyStr s) ctx
  = Ok (match find (fun kv => str_in (fst kv) (lower s)) responses with
        | Some kv => snd kv
        | None => default_response
        end).
Proof.
  unfold get_rag_response_body. cbn [py_lower bind].
  rewrite first_match_str. cbn [bind].
  now destruct (find _ responses).
Qed.

(** Every object that is not a string makes the body raise an exception
    derived from [Exception]. *)
Lemma get_rag_response_body_other (lower : string -> string) (msg ctx : PyVal) :
  (forall s, msg <> PyStr s) ->
  exists e, get_rag_response_body lower msg ctx = Raise e
            /\ exn_is_Exception e = true.
Proof.
  intros Hmsg. destruct msg; try (eexists; split; reflexivity).
  now contradiction (Hmsg s).
Qed.

(** The message "water and health" contains "water" and is answered with the
    health sentence: "health" is declared first. *)
Lemma water_and_health_gets_health :
  str_in "water" (ascii_lower "water and health") = true
  /\ get_rag_response ascii_lower (PyStr "water and health") PyNone
     = mkOutcome [] (Ok health_sentence)
  /\ health_sentence <> water_sentence.
Proof. split; [reflexivity | split; [reflexivity | discriminate]]. Qed.

(** C1 (as amended): a message whose lowercased text contains "water" and does
    not contain "health", the one key declared before "water", is answered with
    the water sentence, whichever of "nutrients", "growth" and "temperature"
    it also contains. *)
Theorem water_first_after_health (lower : string -> string) (msg : string) (ctx : PyVal) :
  str_in "water" (lower msg) = true ->
  str_in "health" (lower msg) = false ->
  get_rag_response lower (PyStr msg) ctx = mkOutcome [] (Ok water_sentence).
Proof.
  intros Hwater Hhealth. unfold get_rag_response.
  rewrite get_rag_response_body_str. unfold responses. cbn [find fst snd].
  now rewrite Hhealth, Hwater.
Qed.

Lemma water_first_after_health_witness :
  get_rag_response ascii_lower (PyStr "What about WATER and nutrients") PyNone
  = mkOutcome [] (Ok water_sentence).
Proof. apply water_first_after_health; reflexivity. Defined.

(** C5: the context argument has no influence on the outcome of
    [get_rag_response]: neither on the returned string nor on what is
    printed. *)
Theorem context_is_dead (lower : string -> string) (msg c1 c2 : PyVal) :
  get_rag_response lower msg c1 = get_rag_response lower msg c2.
Proof. reflexivity. Qed.

(** C7: [get_rag_response] returns a string on every input; whenever its
    body raises, the exception is reported on the standard output and the
    apology is returned; that is the case of every message that is not a
    string. *)
Theorem get_rag_response_never_raises (lower : string -> string) (msg ctx : PyVal) :
  (exists s, returned (get_rag_response lower msg ctx) = Ok s)
  /\ (forall e, get_rag_response_body lower msg ctx = Raise e ->
        get_rag_response lower msg ctx
        = mkOutcome ["Error generating response: " ++ exn_str e] (Ok apology))
  /\ ((forall s, msg <> PyStr s) ->
        returned (get_rag_response lower msg ctx) = Ok apology).
Proof.
  assert (forall e, get_rag_response_body lower msg ctx = Raise e ->
                    exn_is_Exception e = true) as Hcaught.
  { intros e He. destruct msg; try (injection He as <-; reflexivity).
    rewrite get_rag_response_body_str in He. discriminate. }
  unfold get_rag_response, try_except_Exception.
  split; [|split].
  - destruct (get_rag_response_body lower msg ctx) as [s|e] eqn:Hbody.
    + now exists s.
    + rewrite (Hcaught e eq_refl). now exists apology.
  - intros e He. now rewrite He, (Hcaught e He).
  - intros Hmsg.
    destruct (get_rag_response_body_other lower msg ctx Hmsg) as [e [-> ->]].
    reflexivity.
Qed.

Lemma get_rag_response_never_raises_witness :
  returned (get_rag_response ascii_lower PyNone PyNone) = Ok apology
  /\ returned (get_rag_response ascii_lower (PyBytes "water") PyNone) = Ok apology
  /\ returned (get_rag_response ascii_lower (PyInt 7) (PyDict [])) = Ok apology.
Proof.
  split; [|split];
    apply (get_rag_response_never_raises ascii_lower); intros s; discriminate.
Defined.

(** C8: a message whose lowercased text contains none of the five keys is
    answered with the fallback prompt. *)
Theorem no_key_gets_default (lower : string -> string) (msg : string) (ctx : PyVal) :
  (forall k, In k ["health"; "water"; "nutrients"; "growth"; "temperature"] ->
             str_in k (lower msg) = false) ->
  get_rag_response lower (PyStr msg) ctx = mkOutcome [] (Ok default_response).
Proof.
  intros Hnone. unfold get_rag_response.
  rewrite get_rag_response_body_str. unfold responses. cbn [find fst snd].
  rewrite !Hnone by (simpl; tauto). reflexivity.
Qed.

Lemma no_key_gets_default_witness :
  get_rag_response ascii_lower (PyStr "hello there") PyNone
  = mkOutcome [] (Ok default_response).
Proof.
  apply no_key_gets_default.
  intros k Hk. simpl in Hk.
  repeat (destruct Hk as [<- | Hk]; [reflexivity|]). contradiction.
Defined.

(** ** Image classification *)

(** [classify] never raises: both keys are bound in [disease_indicators]. *)
Lemma classify_eq (t : string) :
  classify t
  = Ok (if any_in ["blight"; "blighted"; "wilted"; "dying"; "diseased"; "disease"; "infected"] t
        then "Blighted"
        else if any_in ["spot"; "spots"; "spotted"; "lesion"; "lesions"; "brown"; "yellow"] t
             then "Spotted" else "Healthy",
        0.99%float).
Proof.
  unfold classify. cbn [getitem disease_indicators dict_get String.eqb Ascii.eqb Bool.eqb bind].
  now repeat match goal with |- context [if ?c then _ else _] => destruct c end.
Qed.

Lemma any_in_true (kws : list string) (k t : string) :
  In k kws -> str_in k t = true -> any_in kws t = true.
Proof.
  intros Hk Hin. apply existsb_exists. now exists k.
Qed.

Lemma any_in_false (kws : list string) (t : string) :
  (forall k, In k kws -> str_in k t = false) -> any_in kws t = false.
Proof.
  intros Hnone. unfold any_in.
  induction kws as [|k kws IH]; simpl; [reflexivity|].
  rewrite Hnone by now left. apply IH. intros k' Hk'. apply Hnone. now right.
Qed.

Section Classifier.

Variable lower : string -> string.
Variable Image : Type.
Variable save : Image -> Res string.
Variable analyze_image_in_stream : string -> Res Azure.ImageAnalysis.

Local Abbreviation run := (analyze_maize_image lower save analyze_image_in_stream).

(** The outcome of a call whose encoding and service call both succeed. *)
Lemma analyze_maize_image_ok (image : Image) (bytes : string)
      (analysis : Azure.ImageAnalysis) (label : string) (conf : float) :
  save image = Ok bytes ->
  analyze_image_in_stream bytes = Ok analysis ->
  classify (text_to_check_of lower analysis) = Ok (label, conf) ->
  run image
  = mkOutcome []
      (Ok [ ("success", PyBool true);
            ("health_status", PyStr label);
            ("confidence", PyFloat conf);
            ("description", PyStr ("Leaf appears to be " ++ lower label));
            ("tags", PyList (map PyStr (tags_of lower analysis)));
            ("raw_description", PyStr (description_of analysis)) ]).
Proof.
  intros Hsave Hcall Hclass.
  unfold run, analyze_maize_image, analyze_maize_image_body.
  now rewrite Hsave; cbn [bind]; rewrite Hcall; cbn [bind]; rewrite Hclass.
Qed.

(** The outcome of a call whose encoding or service call raises. *)
Lemma analyze_maize_image_raise (image : Image) (e : PyExn) :
  save image = Raise e
  \/ (exists bytes, save image = Ok bytes
                    /\ analyze_image_in_stream bytes = Raise e) ->
  analyze_maize_image_body lower save analyze_image_in_stream image = Raise e.
Proof.
  unfold analyze_maize_image_body.
  intros [Hsave | [bytes [Hsave Hcall]]].
  - now rewrite Hsave.
  - now rewrite Hsave; cbn [bind]; rewrite Hcall.
Qed.

(** The two shapes of a returned dictionary. *)
Lemma analyze_maize_image_returns (image : Image) (r : Dict) :
  returned (run image) = Ok r ->
  (exists label tags raw,
      r = [ ("success", PyBool true);
            ("health_status", PyStr label);
            ("confidence", PyFloat 0.99%float);
            ("description", PyStr ("Leaf appears to be " ++ lower label));
            ("tags", PyList tags);
            ("raw_description", PyStr raw) ])
  \/ (exists msg, r = [("success", PyBool false); ("error", PyStr msg)]).
Proof.
  unfold run, analyze_maize_image, try_except_Exception.
  destruct (analyze_maize_image_body lower save analyze_image_in_stream image)
    as [d|e] eqn:Hbody.
  - cbn [returned]. intros [= <-]. left.
    unfold analyze_maize_image_body in Hbody.
    destruct (save image) as [bytes|]; [cbn [bind] in Hbody | discriminate].
    destruct (analyze_image_in_stream bytes) as [analysis|];
      [cbn [bind] in Hbody | discriminate].
    rewrite classify_eq in Hbody. cbn [bind] in Hbody.
    injection Hbody as <-. do 3 eexists. reflexivity.
  - destruct (exn_is_Exception e); cbn [returned]; [|discriminate].
    intros [= <-]. right. eexists. reflexivity.
Qed.

(** C2: when the search string contains a blight keyword the label is
    "Blighted", whatever else the string contains and wherever the keyword
    stands in it. *)
Theorem blight_takes_precedence (image : Image) (bytes : string)
        (analysis : Azure.ImageAnalysis) (k : string) :
  save image = Ok bytes ->
  analyze_image_in_stream bytes = Ok analysis ->
  In k ["blight"; "blighted"; "wilted"; "dying"; "diseased"; "disease"; "infected"] ->
  str_in k (text_to_check_of lower analysis) = true ->
  exists r, run image = mkOutcome [] (Ok r)
            /\ dict_get "success" r = Some (PyBool true)
            /\ dict_get "health_status" r = Some (PyStr "Blighted").
Proof.
  intros Hsave Hcall Hk Hin.
  eexists. split.
  - apply (analyze_maize_image_ok image bytes analysis "Blighted" 0.99%float);
      [exact Hsave | exact Hcall |].
    rewrite classify_eq. now rewrite (any_in_true _ k _ Hk Hin).
  - split; reflexivity.
Qed.

(** C3: every result with [success = True] carries the confidence 0.99, and
    its label is one of "Blighted", "Spotted" and "Healthy". *)
Theorem confidence_is_constant (image : Image) (r : Dict) :
  returned (run image) = Ok r ->
  dict_get "success" r = Some (PyBool true) ->
  dict_get "confidence" r = Some (PyFloat 0.99%float)
  /\ (dict_get "health_status" r = Some (PyStr "Blighted")
      \/ dict_get "health_status" r = Some (PyStr "Spotted")
      \/ dict_get "health_status" r = Some (PyStr "Healthy")).
Proof.
  intros Hret Hsuccess.
  unfold analyze_maize_image, try_except_Exception in Hret.
  destruct (analyze_maize_image_body lower save analyze_image_in_stream image)
    as [d|e] eqn:Hbody.
  - cbn [returned] in Hret. injection Hret as <-.
    unfold analyze_maize_image_body in Hbody.
    destruct (save image) as [bytes|]; [cbn [bind] in Hbody | discriminate].
    destruct (analyze_image_in_stream bytes) as [analysis|];
      [cbn [bind] in Hbody | discriminate].
    rewrite classify_eq in Hbody. cbn [bind] in Hbody. injection Hbody as <-.
    split; [reflexivity|].
    cbn [dict_get String.eqb Ascii.eqb Bool.eqb].
    match goal with |- context [if ?c then _ else _] => destruct c end;
      [now left|].
    match goal with |- context [if ?c then _ else _] => destruct c end;
      [right; now left | right; now right].
  - destruct (exn_is_Exception e); cbn [returned] in Hret; [|discriminate].
    injection Hret as <-. discriminate.
Qed.

(** C4: an exception raised by the encoder or by the service call is
    caught: the call prints it and returns the dictionary
    [{success: False, error: str(e)}]; and a returned dictionary whose
    [success] is [False] has none of the keys [health_status],
    [confidence], [description] and [tags]. *)
Theorem failure_is_reported (image : Image) :
  (forall e,
      save image = Raise e
      \/ (exists bytes, save image = Ok bytes
                        /\ analyze_image_in_stream bytes = Raise e) ->
      exn_is_Exception e = true ->
      run image
      = mkOutcome ["Error analyzing image: " ++ exn_str e]
          (Ok [("success", PyBool false); ("error", PyStr (exn_str e))]))
  /\ (forall r,
        returned (run image) = Ok r ->
        dict_get "success" r = Some (PyBool false) ->
        dict_get "health_status" r = None
        /\ dict_get "confidence" r = None
        /\ dict_get "description" r = None
        /\ dict_get "tags" r = None).
Proof.
  split.
  - intros e Hraise Hcaught.
    unfold analyze_maize_image, try_except_Exception.
    now rewrite (analyze_maize_image_raise image e Hraise), Hcaught.
  - intros r Hret Hsuccess.
    destruct (analyze_maize_image_returns image r Hret)
      as [[label [tags [raw ->]]] | [msg ->]].
    + discriminate.
    + repeat split.
Qed.

(** C6: when the search string contains no blight keyword and no spot
    keyword, the call succeeds with the label "Healthy" and the confidence
    0.99. *)
Theorem no_keyword_is_healthy (image : Image) (bytes : string)
        (analysis : Azure.ImageAnalysis) :
  save image = Ok bytes ->
  analyze_image_in_stream bytes = Ok analysis ->
  (forall k,
      In k ["blight"; "blighted"; "wilted"; "dying"; "diseased"; "disease"; "infected"] ->
      str_in k (text_to_check_of lower analysis) = false) ->
  (forall k,
      In k ["spot"; "spots"; "spotted"; "lesion"; "lesions"; "brown"; "yellow"] ->
      str_in k (text_to_check_of lower analysis) = false) ->
  exists r, run image = mkOutcome [] (Ok r)
            /\ dict_get "success" r = Some (PyBool true)
            /\ dict_get "health_status" r = Some (PyStr "Healthy")
            /\ dict_get "confidence" r = Some (PyFloat 0.99%float).
Proof.
  intros Hsave Hcall Hblight Hspot.
  eexists. split.
  - apply (analyze_maize_image_ok image bytes analysis "Healthy" 0.99%float);
      [exact Hsave | exact Hcall |].
    rewrite classify_eq.
    now rewrite (any_in_false _ _ Hblight), (any_in_false _ _ Hspot).
  - repeat split.
Qed.

End Classifier.

Lemma tags_of_ext (lower : string -> string) (a1 a2 : Azure.ImageAnalysis) :
  map Azure.name (Azure.tags a1) = map Azure.name (Azure.tags a2) ->
  tags_of lower a1 = tags_of lower a2.
Proof.
  intros Hnames. unfold tags_of.
  rewrite <- !(map_map Azure.name lower). now rewrite Hnames.
Qed.

Lemma description_of_ext (a1 a2 : Azure.ImageAnalysis) :
  map Azure.text (Azure.captions (Azure.description a1))
  = map Azure.text (Azure.captions (Azure.description a2)) ->
  description_of a1 = description_of a2.
Proof.
  unfold description_of.
  destruct (Azure.captions (Azure.description a1)) as [|c1 l1];
    destruct (Azure.captions (Azure.description a2)) as [|c2 l2];
    simpl; congruence.
Qed.

(** C9: two calls on the same image to which the service answers with the
    same tag names and the same captions have the same outcome: the same
    dictionary, hence the same label, and the same output; the other fields
    of the answers (confidences, request id) may differ. *)
Theorem same_answer_same_result (lower : string -> string) (Image : Type)
        (save : Image -> Res string)
        (first_call second_call : string -> Res Azure.ImageAnalysis)
        (image : Image) (bytes : string) (a1 a2 : Azure.ImageAnalysis) :
  save image = Ok bytes ->
  first_call bytes = Ok a1 ->
  second_call bytes = Ok a2 ->
  map Azure.name (Azure.tags a1) = map Azure.name (Azure.tags a2) ->
  map Azure.text (Azure.captions (Azure.description a1))
  = map Azure.text (Azure.captions (Azure.description a2)) ->
  analyze_maize_image lower save first_call image
  = analyze_maize_image lower save second_call image.
Proof.
  intros Hsave H1 H2 Htags Hcaptions.
  unfold analyze_maize_image, analyze_maize_image_body, text_to_check_of.
  rewrite Hsave. cbn [bind]. rewrite H1, H2. cbn [bind].
  now rewrite (tags_of_ext lower a1 a2 Htags),
              (description_of_ext a1 a2 Hcaptions).
Qed.

Lemma same_answer_same_result_witness :
  green_leaf <> green_leaf_again
  /\ analyze_maize_image ascii_lower encoder_ok (service_returning green_leaf) "pixels"
     = analyze_maize_image ascii_lower encoder_ok (service_returning green_leaf_again) "pixels".
Proof.
  split; [discriminate|].
  apply (same_answer_same_result ascii_lower string encoder_ok
           (service_returning green_leaf) (service_returning green_leaf_again)
           "pixels" "pixels" green_leaf green_leaf_again); reflexivity.
Defined.

Lemma any_in_trailing (kws : list string) (s : string) :
  Forall (fun k => k <> "" /\ str_in " " k = false) kws ->
  any_in kws (s ++ " ") = any_in kws s.
Proof.
  unfold any_in. induction 1 as [|k kws [Hk Hsp] _ IH]; simpl; [reflexivity|].
  now rewrite (str_in_trailing " "%char k s Hk Hsp), IH.
Qed.

(** The space that [join] puts before an empty last element does not change
    the verdict. *)
Lemma classify_trailing (s : string) : classify (s ++ " ") = classify s.
Proof.
  rewrite !classify_eq.
  rewrite !any_in_trailing;
    [reflexivity | |];
    repeat (constructor; [split; [discriminate | reflexivity]|]); constructor.
Qed.

(** C10: with an empty list of captions the call does not fail:
    [raw_description] is the empty string and the label is the one that
    [classify] gives to the joined tags alone. *)
Theorem empty_captions_ok (lower : string -> string) (Image : Type)
        (save : Image -> Res string)
        (analyze_image_in_stream : string -> Res Azure.ImageAnalysis)
        (image : Image) (bytes : string) (analysis : Azure.ImageAnalysis) :
  lower "" = "" ->
  save image = Ok bytes ->
  analyze_image_in_stream bytes = Ok analysis ->
  Azure.captions (Azure.description analysis) = [] ->
  exists label conf,
    classify (join " " (tags_of lower analysis)) = Ok (label, conf)
    /\ analyze_maize_image lower save analyze_image_in_stream image
       = mkOutcome []
           (Ok [ ("success", PyBool true);
                 ("health_status", PyStr label);
                 ("confidence", PyFloat conf);
                 ("description", PyStr ("Leaf appears to be " ++ lower label));
                 ("tags", PyList (map PyStr (tags_of lower analysis)));
                 ("raw_description", PyStr "") ]).
Proof.
  intros Hlower Hsave Hcall Hcaptions.
  assert (description_of analysis = "") as Hdescr
      by (unfold description_of; now rewrite Hcaptions).
  assert (classify (text_to_check_of lower analysis)
          = classify (join " " (tags_of lower analysis))) as Htext.
  { unfold text_to_check_of. rewrite Hdescr, Hlower.
    destruct (tags_of lower analysis) as [|t ts] eqn:Htags; [reflexivity|].
    rewrite join_snoc_empty by discriminate. apply classify_trailing. }
  destruct (classify (join " " (tags_of lower analysis))) as [[label conf]|e] eqn:Hc.
  - exists label, conf. split; [reflexivity|].
    rewrite (analyze_maize_image_ok lower Image save analyze_image_in_stream
               image bytes analysis label conf Hsave Hcall Htext).
    now rewrite Hdescr.
  - rewrite classify_eq in Hc. discriminate.
Qed.

Lemma empty_captions_ok_witness :
  analyze_maize_image ascii_lower encoder_ok (service_returning wilted_no_caption) "pixels"
  = mkOutcome []
      (Ok [ ("success", PyBool true);
            ("health_status", PyStr "Blighted");
            ("confidence", PyFloat 0.99%float);
            ("description", PyStr "Leaf appears to be blighted");
            ("tags", PyList [PyStr "plant"; PyStr "wilted"]);
            ("raw_description", PyStr "") ]).
Proof.
  destruct (empty_captions_ok ascii_lower string encoder_ok
              (service_returning wilted_no_caption) "pixels" "pixels"
              wilted_no_caption eq_refl eq_refl eq_refl eq_refl)
    as [label [conf [Hclass Hrun]]].
  vm_compute in Hclass. injection Hclass as <- <-. exact Hrun.
Defined.

(** ** The classifier on the sample answers *)

Lemma blight_takes_precedence_witness :
  str_in "yellow" (text_to_check_of ascii_lower yellow_then_blight) = true
  /\ exists r,
      analyze_maize_image ascii_lower encoder_ok
        (service_returning yellow_then_blight) "pixels" = mkOutcome [] (Ok r)
      /\ dict_get "success" r = Some (PyBool true)
      /\ dict_get "health_status" r = Some (PyStr "Blighted").
Proof.
  split; [reflexivity|].
  apply (blight_takes_precedence ascii_lower string encoder_ok
           (service_returning yellow_then_blight)
           "pixels" "pixels" yellow_then_blight "blight").
  - reflexivity.
  - reflexivity.
  - simpl. tauto.
  - reflexivity.
Defined.

Lemma confidence_is_constant_witness :
  (exists r,
      returned (analyze_maize_image ascii_lower encoder_ok
                  (service_returning yellow_then_blight) "pixels") = Ok r
      /\ dict_get "health_status" r = Some (PyStr "Blighted")
      /\ dict_get "confidence" r = Some (PyFloat 0.99%float))
  /\ (exists r,
      returned (analyze_maize_image ascii_lower encoder_ok
                  (service_returning brown_lesions) "pixels") = Ok r
      /\ dict_get "health_status" r = Some (PyStr "Spotted")
      /\ dict_get "confidence" r = Some (PyFloat 0.99%float))
  /\ (exists r,
      returned (analyze_maize_image ascii_lower encoder_ok
                  (service_returning green_leaf) "pixels") = Ok r
      /\ dict_get "health_status" r = Some (PyStr "Healthy")
      /\ dict_get "confidence" r = Some (PyFloat 0.99%float)).
Proof.
  split; [|split]; eexists; (split; [vm_compute; reflexivity|]);
    (split; [reflexivity|]).
  - apply (confidence_is_constant ascii_lower string encoder_ok
             (service_returning yellow_then_blight) "pixels"); reflexivity.
  - apply (confidence_is_constant ascii_lower string encoder_ok
             (service_returning brown_lesions) "pixels"); reflexivity.
  - apply (confidence_is_constant ascii_lower string encoder_ok
             (service_returning green_leaf) "pixels"); reflexivity.
Defined.

Lemma failure_is_reported_witness :
  analyze_maize_image ascii_lower encoder_ok
    (service_failing invalid_credential) "pixels"
  = mkOutcome
      ["Error analyzing image: Operation returned an invalid status code 'PermissionDenied'"]
      (Ok [ ("success", PyBool false);
            ("error", PyStr "Operation returned an invalid status code 'PermissionDenied'") ])
  /\ analyze_maize_image ascii_lower (encoder_failing cannot_write_mode)
       (service_returning green_leaf) "pixels"
     = mkOutcome
         ["Error analyzing image: cannot write mode RGBA as JPEG"]
         (Ok [ ("success", PyBool false);
               ("error", PyStr "cannot write mode RGBA as JPEG") ]).
Proof.
  split.
  - apply (proj1 (failure_is_reported ascii_lower string encoder_ok
                    (service_failing invalid_credential) "pixels")
             invalid_credential).
    + right. exists "pixels". split; reflexivity.
    + reflexivity.
  - apply (proj1 (failure_is_reported ascii_lower string
                    (encoder_failing cannot_write_mode)
                    (service_returning green_leaf) "pixels")
             cannot_write_mode).
    + left. reflexivity.
    + reflexivity.
Defined.

Lemma no_keyword_is_healthy_witness :
  exists r,
    analyze_maize_image ascii_lower encoder_ok
      (service_returning green_leaf) "pixels" = mkOutcome [] (Ok r)
    /\ dict_get "success" r = Some (PyBool true)
    /\ dict_get "health_status" r = Some (PyStr "Healthy")
    /\ dict_get "confidence" r = Some (PyFloat 0.99%float).
Proof.
  apply (no_keyword_is_healthy ascii_lower string encoder_ok
           (service_returning green_leaf) "pixels" "pixels" green_leaf);
    try reflexivity;
    intros k Hk; simpl in Hk;
    repeat (destruct Hk as [<- | Hk]; [reflexivity|]); contradiction.
Defined.

(** * Further properties of [rag_model.py] *)

(** ** More on the substring test *)

Lemma str_in_trans (q p s : string) :
  str_in q p = true -> str_in p s = true -> str_in q s = true.
Proof.
  rewrite !str_in_spec. intros [a [b ->]] [a' [b' ->]].
  exists (a' ++ a), (b ++ b'). now rewrite !append_assoc.
Qed.

Lemma str_in_empty (k : string) : k <> "" -> str_in k "" = false.
Proof. destruct k; [congruence | reflexivity]. Qed.

(** Two ways of cutting the same string: one cut comes first. *)
Lemma append_split (a b x y : string) :
  a ++ b = x ++ y ->
  (exists m, x = a ++ m /\ b = m ++ y) \/ (exists m, a = x ++ m /\ y = m ++ b).
Proof.
  revert x; induction a as [|c a IH]; intros x H; simpl in H.
  - left. now exists x.
  - destruct x as [|d x]; simpl in H.
    + right. now exists (String c a).
    + injection H as -> H. destruct (IH x H) as [[m [-> ->]] | [m [-> ->]]].
      * left. now exists m.
      * right. now exists m.
Qed.

(** A keyword that does not contain the separator occurs in [x c y] only
    inside [x] or inside [y]. *)
Lemma str_in_sep (c : ascii) (k x y : string) :
  k <> "" -> str_in (String c "") k = false ->
  str_in k (x ++ String c y) = str_in k x || str_in k y.
Proof.
  intros Hk Hc.
  assert (forall u v, k <> u ++ String c v) as Hfree.
  { intros u v ->. rewrite (proj2 (str_in_spec _ _)) in Hc; [discriminate|].
    now exists u, v. }
  destruct (str_in k x) eqn:Hx; [now apply str_in_app_l|].
  destruct (str_in k y) eqn:Hy.
  { apply str_in_app_r. apply str_in_spec in Hy. destruct Hy as [a [b ->]].
    apply str_in_spec. now exists (String c a), b. }
  simpl. destruct (str_in k (x ++ String c y)) eqn:Hxy; [|reflexivity].
  exfalso. apply str_in_spec in Hxy. destruct Hxy as [a [b Hab]].
  symmetry in Hab.
  destruct (append_split a (k ++ b) x (String c y) Hab)
    as [[m [-> Hm]] | [m [-> Hm]]].
  - destruct (append_split k b m (String c y) Hm) as [[m' [-> _]] | [m' [-> Hm']]].
    + assert (str_in k (a ++ k ++ m') = true) by (apply str_in_spec; now exists a, m').
      congruence.
    + destruct m' as [|d m'].
      * rewrite append_empty_r in Hx.
        assert (str_in m (a ++ m) = true)
          by (apply str_in_spec; exists a, ""; now rewrite append_empty_r).
        congruence.
      * simpl in Hm'. injection Hm' as <- _. now apply (Hfree m m').
  - destruct m as [|d m]; simpl in Hm.
    + destruct k as [|d k]; [congruence|]. simpl in Hm. injection Hm as <- _.
      now apply (Hfree "" k).
    + injection Hm as _ ->.
      assert (str_in k (m ++ k ++ b) = true) by (apply str_in_spec; now exists m, b).
      congruence.
Qed.

(** In a joined text such a keyword occurs inside one of the joined parts. *)
Lemma str_in_join (c : ascii) (k : string) (l : list string) :
  k <> "" -> str_in (String c "") k = false ->
  str_in k (join (String c "") l) = existsb (fun x => str_in k x) l.
Proof.
  intros Hk Hc. unfold join. induction l as [|x l IH].
  - simpl. now apply str_in_empty.
  - destruct l as [|y l].
    + simpl. now rewrite orb_false_r.
    + change (String.concat (String c "") (x :: y :: l))
        with (x ++ String c (String.concat (String c "") (y :: l))).
      rewrite str_in_sep by assumption. now rewrite IH.
Qed.

Lemma existsb_swap {A B : Type} (f : A -> B -> bool) (la : list A) (lb : list B) :
  existsb (fun a => existsb (fun b => f a b) lb) la
  = existsb (fun b => existsb (fun a => f a b) la) lb.
Proof.
  induction la as [|a la IH]; simpl.
  - induction lb as [|b lb IHb]; simpl; [reflexivity | now rewrite <- IHb].
  - rewrite IH. clear IH. induction lb as [|b lb IHb]; simpl; [reflexivity|].
    rewrite <- IHb. now destruct (f a b), (existsb (fun a0 => f a0 b) la),
                       (existsb (fun b0 => f a b0) lb).
Qed.

Lemma any_in_join (c : ascii) (kws l : list string) :
  Forall (fun k => k <> "" /\ str_in (String c "") k = false) kws ->
  any_in kws (join (String c "") l) = existsb (any_in kws) l.
Proof.
  intros Hkws. unfold any_in.
  rewrite <- (existsb_swap (fun k x => str_in k x)).
  induction Hkws as [|k kws [Hk Hc] _ IH]; simpl; [reflexivity|].
  now rewrite (str_in_join c k l Hk Hc), IH.
Qed.

(** ** Response lookup, in general *)

Lemma find_first {A : Type} (f : A -> bool) (l : list A) (i : nat) (x : A) :
  nth_error l i = Some x ->
  f x = true ->
  (forall j y, j < i -> nth_error l j = Some y -> f y = false) ->
  find f l = Some x.
Proof.
  revert i; induction l as [|a l IH]; intros i Hi Hx Hbefore.
  - destruct i; discriminate.
  - destruct i as [|i]; simpl in Hi.
    + injection Hi as ->. simpl. now rewrite Hx.
    + simpl. rewrite (Hbefore 0 a) by (simpl; (lia || reflexivity)).
      apply (IH i Hi Hx). intros j y Hj Hy. apply (Hbefore (S j) y); [lia | exact Hy].
Qed.

(** X1: the entry of [responses] that answers a message is the first one, in
    the order of declaration, whose key occurs in the lowercased message. *)
Theorem first_key_in_declared_order (lower : string -> string) (msg : string)
        (ctx : PyVal) (i : nat) (key response : string) :
  nth_error responses i = Some (key, response) ->
  str_in key (lower msg) = true ->
  (forall j key' response', j < i ->
      nth_error responses j = Some (key', response') ->
      str_in key' (lower msg) = false) ->
  get_rag_response lower (PyStr msg) ctx = mkOutcome [] (Ok response).
Proof.
  intros Hi Hkey Hbefore. unfold get_rag_response.
  rewrite get_rag_response_body_str.
  rewrite (find_first (fun kv => str_in (fst kv) (lower msg)) responses i
             (key, response) Hi Hkey); [reflexivity|].
  intros j [key' response'] Hj Hy. exact (Hbefore j key' response' Hj Hy).
Qed.

Lemma first_key_in_declared_order_witness :
  get_rag_response ascii_lower (PyStr "Temperature and GROWTH, please") PyNone
  = mkOutcome [] (Ok growth_sentence).
Proof.
  apply (first_key_in_declared_order ascii_lower _ PyNone 3 "growth").
  - reflexivity.
  - reflexivity.
  - intros j key' response' Hj Hnth.
    destruct j as [|[|[|j]]]; [| | |lia]; injection Hnth as <- _; reflexivity.
Defined.

(** X2: the answer is always one of seven fixed strings, never text taken
    from the message; on a string message it is one of the five sentences or
    the fallback prompt, never the apology, and nothing is printed. *)
Theorem answers_are_canned (lower : string -> string) (ctx : PyVal) :
  (forall msg : PyVal,
      exists s, returned (get_rag_response lower msg ctx) = Ok s
                /\ In s (map snd responses ++ [default_response; apology])%list)
  /\ (forall msg : string,
      exists s, get_rag_response lower (PyStr msg) ctx = mkOutcome [] (Ok s)
                /\ In s (map snd responses ++ [default_response])%list
                /\ s <> apology).
Proof.
  assert (forall msg : string,
      exists s, get_rag_response lower (PyStr msg) ctx = mkOutcome [] (Ok s)
                /\ In s (map snd responses ++ [default_response])%list
                /\ s <> apology) as Hstr.
  { intros msg. unfold get_rag_response. rewrite get_rag_response_body_str.
    destruct (find _ responses) as [[key response]|] eqn:Hfind.
    - exists response. split; [reflexivity|].
      apply find_some in Hfind. destruct Hfind as [Hin _].
      split.
      + apply in_or_app. left. now apply (in_map snd) in Hin.
      + simpl in Hin.
        repeat (destruct Hin as [[= <- <-] | Hin]; [discriminate|]).
        contradiction.
    - exists default_response. split; [reflexivity|]. split.
      + apply in_or_app. right. now left.
      + discriminate. }
  split; [|exact Hstr].
  intros msg.
  destruct msg; try (exists apology; split;
                     [reflexivity | apply in_or_app; right; right; now left]).
  destruct (Hstr s) as [r [-> [Hin _]]]. exists r. split; [reflexivity|].
  apply in_app_or in Hin. apply in_or_app. destruct Hin as [Hin | [<- | []]].
  - now left.
  - right. now left.
Qed.

(** ** Labels and keywords *)

(** X3: when the search string contains a spot keyword and no blight
    keyword, the call succeeds with the label "Spotted" and the confidence
    0.99. *)
Theorem spot_without_blight_is_spotted (lower : string -> string) (Image : Type)
        (save : Image -> Res string)
        (analyze_image_in_stream : string -> Res Azure.ImageAnalysis)
        (image : Image) (bytes : string) (analysis : Azure.ImageAnalysis)
        (k : string) :
  save image = Ok bytes ->
  analyze_image_in_stream bytes = Ok analysis ->
  (forall b,
      In b ["blight"; "blighted"; "wilted"; "dying"; "diseased"; "disease"; "infected"] ->
      str_in b (text_to_check_of lower analysis) = false) ->
  In k ["spot"; "spots"; "spotted"; "lesion"; "lesions"; "brown"; "yellow"] ->
  str_in k (text_to_check_of lower analysis) = true ->
  exists r, analyze_maize_image lower save analyze_image_in_stream image
            = mkOutcome [] (Ok r)
            /\ dict_get "success" r = Some (PyBool true)
            /\ dict_get "health_status" r = Some (PyStr "Spotted")
            /\ dict_get "confidence" r = Some (PyFloat 0.99%float)
            /\ dict_get "description" r
               = Some (PyStr ("Leaf appears to be " ++ lower "Spotted")).
Proof.
  intros Hsave Hcall Hblight Hk Hin.
  eexists. split.
  - apply (analyze_maize_image_ok lower Image save analyze_image_in_stream
             image bytes analysis "Spotted" 0.99%float Hsave Hcall).
    rewrite classify_eq.
    now rewrite (any_in_false _ _ Hblight), (any_in_true _ k _ Hk Hin).
  - repeat split.
Qed.

Lemma spot_without_blight_is_spotted_witness :
  exists r, analyze_maize_image ascii_lower encoder_ok
              (service_returning brown_lesions) "pixels" = mkOutcome [] (Ok r)
            /\ dict_get "success" r = Some (PyBool true)
            /\ dict_get "health_status" r = Some (PyStr "Spotted")
            /\ dict_get "confidence" r = Some (PyFloat 0.99%float)
            /\ dict_get "description" r = Some (PyStr "Leaf appears to be spotted").
Proof.
  apply (spot_without_blight_is_spotted ascii_lower string encoder_ok
           (service_returning brown_lesions) "pixels" "pixels" brown_lesions "brown");
    try reflexivity.
  - intros b Hb. simpl in Hb.
    repeat (destruct Hb as [<- | Hb]; [reflexivity|]). contradiction.
  - simpl. tauto.
Defined.

(** X4: a returned label tells which keywords the search string contains:
    "Blighted" only with a blight keyword, "Spotted" only with a spot
    keyword and no blight keyword, "Healthy" only with neither. *)
Theorem label_tells_keywords (lower : string -> string) (Image : Type)
        (save : Image -> Res string)
        (analyze_image_in_stream : string -> Res Azure.ImageAnalysis)
        (image : Image) (bytes : string) (analysis : Azure.ImageAnalysis)
        (r : Dict) :
  save image = Ok bytes ->
  analyze_image_in_stream bytes = Ok analysis ->
  returned (analyze_maize_image lower save analyze_image_in_stream image) = Ok r ->
  let text := text_to_check_of lower analysis in
  let blight := ["blight"; "blighted"; "wilted"; "dying"; "diseased"; "disease"; "infected"] in
  let spot := ["spot"; "spots"; "spotted"; "lesion"; "lesions"; "brown"; "yellow"] in
  (dict_get "health_status" r = Some (PyStr "Blighted") ->
   any_in blight text = true)
  /\ (dict_get "health_status" r = Some (PyStr "Spotted") ->
      any_in blight text = false /\ any_in spot text = true)
  /\ (dict_get "health_status" r = Some (PyStr "Healthy") ->
      any_in blight text = false /\ any_in spot text = false).
Proof.
  intros Hsave Hcall Hret text blight spot.
  pose proof (classify_eq text) as Hclass. fold blight spot in Hclass.
  destruct (any_in blight text) eqn:Hb; [|destruct (any_in spot text) eqn:Hs];
    rewrite (analyze_maize_image_ok lower Image save analyze_image_in_stream
               image bytes analysis _ _ Hsave Hcall Hclass) in Hret;
    cbn [returned] in Hret; injection Hret as <-;
    (split; [|split]); intros Hlabel; try discriminate; now split.
Qed.

Lemma label_tells_keywords_witness :
  any_in ["blight"; "blighted"; "wilted"; "dying"; "diseased"; "disease"; "infected"]
         (text_to_check_of ascii_lower brown_lesions) = false
  /\ any_in ["spot"; "spots"; "spotted"; "lesion"; "lesions"; "brown"; "yellow"]
            (text_to_check_of ascii_lower brown_lesions) = true.
Proof.
  refine (proj1 (proj2 (label_tells_keywords ascii_lower string encoder_ok
                          (service_returning brown_lesions) "pixels" "pixels"
                          brown_lesions _ eq_refl eq_refl eq_refl)) eq_refl).
Defined.

Lemma keywords_have_no_space :
  Forall (fun k => k <> "" /\ str_in " " k = false)
         ["blight"; "blighted"; "wilted"; "dying"; "diseased"; "disease"; "infected"]
  /\ Forall (fun k => k <> "" /\ str_in " " k = false)
            ["spot"; "spots"; "spotted"; "lesion"; "lesions"; "brown"; "yellow"].
Proof.
  split; repeat (constructor; [split; [discriminate | reflexivity]|]); constructor.
Qed.

(** X5: joining the tags and the caption with spaces creates no match: a
    keyword list matches the search string exactly when it matches one of
    the lowercased tags or the lowercased caption on its own. *)
Theorem keywords_match_inside_one_part (lower : string -> string)
        (analysis : Azure.ImageAnalysis) :
  let text := text_to_check_of lower analysis in
  let parts := (tags_of lower analysis ++ [lower (description_of analysis)])%list in
  any_in ["blight"; "blighted"; "wilted"; "dying"; "diseased"; "disease"; "infected"] text
  = existsb
      (any_in ["blight"; "blighted"; "wilted"; "dying"; "diseased"; "disease"; "infected"])
      parts
  /\ any_in ["spot"; "spots"; "spotted"; "lesion"; "lesions"; "brown"; "yellow"] text
     = existsb
         (any_in ["spot"; "spots"; "spotted"; "lesion"; "lesions"; "brown"; "yellow"])
         parts.
Proof.
  intros text parts. unfold text, parts, text_to_check_of.
  destruct keywords_have_no_space as [Hblight Hspot].
  split; now apply (any_in_join " "%char).
Qed.

(** X6: five of the fourteen keywords are redundant, each containing another
    keyword of its list: both tests give the same answer with "blighted" and
    "diseased", and with "spots", "spotted" and "lesions", left out. *)
Theorem redundant_keywords (text : string) :
  exists blighted spotted,
    getitem disease_indicators "blighted" = Ok blighted
    /\ getitem disease_indicators "spotted" = Ok spotted
    /\ any_in blighted text
       = any_in ["blight"; "wilted"; "dying"; "disease"; "infected"] text
    /\ any_in spotted text = any_in ["spot"; "lesion"; "brown"; "yellow"] text.
Proof.
  do 2 eexists. split; [reflexivity|]. split; [reflexivity|].
  assert (forall q p, str_in q p = true ->
                      str_in q text || str_in p text = str_in q text) as Habsorb.
  { intros q p Hqp. destruct (str_in p text) eqn:Hp.
    - now rewrite (str_in_trans q p text Hqp Hp).
    - apply orb_false_r. }
  pose proof (Habsorb "blight" "blighted" eq_refl) as H1.
  pose proof (Habsorb "disease" "diseased" eq_refl) as H2.
  pose proof (Habsorb "spot" "spots" eq_refl) as H3.
  pose proof (Habsorb "spot" "spotted" eq_refl) as H4.
  pose proof (Habsorb "lesion" "lesions" eq_refl) as H5.
  unfold any_in. cbn [existsb]. split.
  - destruct (str_in "blighted" text), (str_in "diseased" text),
      (str_in "blight" text), (str_in "disease" text),
      (str_in "wilted" text), (str_in "dying" text), (str_in "infected" text);
      (reflexivity || discriminate).
  - destruct (str_in "spots" text), (str_in "spotted" text), (str_in "lesions" text),
      (str_in "spot" text), (str_in "lesion" text),
      (str_in "brown" text), (str_in "yellow" text);
      (reflexivity || discriminate).
Qed.

(** X7: the verdict depends on the service's answer only through the
    lowercased tag names and the lowercased first caption: two answers that
    agree on them give dictionaries that agree on every key but
    [raw_description], whatever the letter case of the tags and the caption
    and whatever captions follow the first. *)
Theorem verdict_is_case_blind (lower : string -> string) (Image : Type)
        (save : Image -> Res string)
        (first_call second_call : string -> Res Azure.ImageAnalysis)
        (image : Image) (bytes : string) (a1 a2 : Azure.ImageAnalysis) :
  save image = Ok bytes ->
  first_call bytes = Ok a1 ->
  second_call bytes = Ok a2 ->
  tags_of lower a1 = tags_of lower a2 ->
  lower (description_of a1) = lower (description_of a2) ->
  exists r1 r2,
    analyze_maize_image lower save first_call image = mkOutcome [] (Ok r1)
    /\ analyze_maize_image lower save second_call image = mkOutcome [] (Ok r2)
    /\ forall key, key <> "raw_description" -> dict_get key r1 = dict_get key r2.
Proof.
  intros Hsave H1 H2 Htags Hdescr.
  assert (text_to_check_of lower a1 = text_to_check_of lower a2) as Htext
      by (unfold text_to_check_of; now rewrite Htags, Hdescr).
  destruct (classify (text_to_check_of lower a1)) as [[label conf]|e] eqn:Hclass;
    [|rewrite classify_eq in Hclass; discriminate].
  do 2 eexists. split; [|split].
  - exact (analyze_maize_image_ok lower Image save first_call image bytes a1
             label conf Hsave H1 Hclass).
  - rewrite Htext in Hclass.
    exact (analyze_maize_image_ok lower Image save second_call image bytes a2
             label conf Hsave H2 Hclass).
  - intros key Hkey. rewrite Htags. cbn [dict_get].
    repeat (destruct (String.eqb key _) eqn:?; [reflexivity|]).
    destruct (String.eqb_spec key "raw_description"); [contradiction | reflexivity].
Qed.

Lemma verdict_is_case_blind_witness :
  map Azure.name (Azure.tags loud_leaf) <> map Azure.name (Azure.tags quiet_leaf)
  /\ exists r1 r2,
      analyze_maize_image ascii_lower encoder_ok (service_returning loud_leaf) "pixels"
      = mkOutcome [] (Ok r1)
      /\ analyze_maize_image ascii_lower encoder_ok (service_returning quiet_leaf) "pixels"
         = mkOutcome [] (Ok r2)
      /\ forall key, key <> "raw_description" -> dict_get key r1 = dict_get key r2.
Proof.
  split; [discriminate|].
  apply (verdict_is_case_blind ascii_lower string encoder_ok
           (service_returning loud_leaf) (service_returning quiet_leaf)
           "pixels" "pixels" loud_leaf quiet_leaf); reflexivity.
Defined.

(** X8: [except Exception] does not catch what is not derived from
    [Exception]: such an exception raised by the encoder or by the service
    call leaves [analyze_maize_image] as it is, and nothing is printed. *)
Theorem other_exceptions_escape (lower : string -> string) (Image : Type)
        (save : Image -> Res string)
        (analyze_image_in_stream : string -> Res Azure.ImageAnalysis)
        (image : Image) (e : PyExn) :
  save image = Raise e
  \/ (exists bytes, save image = Ok bytes
                    /\ analyze_image_in_stream bytes = Raise e) ->
  exn_is_Exception e = false ->
  analyze_maize_image lower save analyze_image_in_stream image
  = mkOutcome [] (Raise e).
Proof.
  intros Hraise Hclass. unfold analyze_maize_image, try_except_Exception.
  now rewrite (analyze_maize_image_raise lower Image save analyze_image_in_stream
                 image e Hraise), Hclass.
Qed.

Lemma other_exceptions_escape_witness :
  analyze_maize_image ascii_lower encoder_ok (service_failing keyboard_interrupt) "pixels"
  = mkOutcome [] (Raise keyboard_interrupt).
Proof.
  apply other_exceptions_escape; [|reflexivity].
  right. exists "pixels". split; reflexivity.
Defined.

(** * Properties of the callbacks of [app.py] *)

(** ** Splitting at commas *)

Lemma split_char_not_nil (c : ascii) (s : string) : split_char c s <> [].
Proof.
  destruct s as [|a s]; simpl; [discriminate|].
  destruct (Ascii.eqb a c); [discriminate|].
  destruct (split_char c s); discriminate.
Qed.

Lemma str_in_char_cons (c a : ascii) (s : string) :
  str_in (String c "") (String a s) = Ascii.eqb c a || str_in (String c "") s.
Proof.
  cbn [str_in startswith]. destruct s; now rewrite andb_true_r.
Qed.

Lemma split_char_no_sep (c : ascii) (s : string) :
  str_in (String c "") s = false -> split_char c s = [s].
Proof.
  induction s as [|a s IH]; [reflexivity|].
  rewrite str_in_char_cons. intros H. apply orb_false_iff in H. destruct H as [Hac Hs].
  simpl. rewrite Ascii.eqb_sym, Hac. now rewrite (IH Hs).
Qed.

Lemma split_char_at_first (c : ascii) (header rest : string) :
  str_in (String c "") header = false ->
  split_char c (header ++ String c rest) = header :: split_char c rest.
Proof.
  induction header as [|a header IH]; intros Hfree.
  - simpl. now rewrite Ascii.eqb_refl.
  - rewrite str_in_char_cons in Hfree. apply orb_false_iff in Hfree.
    destruct Hfree as [Hac Hfree].
    simpl. rewrite Ascii.eqb_sym, Hac. now rewrite (IH Hfree).
Qed.

Lemma split_char_length_app (c : ascii) (a b : string) :
  List.length (split_char c (a ++ String c b))
  = List.length (split_char c a) + List.length (split_char c b).
Proof.
  induction a as [|x a IH]; simpl.
  - now rewrite Ascii.eqb_refl.
  - destruct (Ascii.eqb x c); simpl; [now rewrite IH|].
    pose proof (split_char_not_nil c (a ++ String c b)) as H1.
    pose proof (split_char_not_nil c a) as H2.
    destruct (split_char c (a ++ String c b)); [congruence|].
    destruct (split_char c a); [congruence|]. exact IH.
Qed.

Lemma split_char_length_pos (c : ascii) (s : string) :
  1 <= List.length (split_char c s).
Proof.
  pose proof (split_char_not_nil c s). destruct (split_char c s); simpl; [congruence | lia].
Qed.

(** ** Sequencing *)

Lemma obind_lift_ok {A B : Type} (a : A) (k : A -> Outcome B) :
  obind (lift (Ok a)) k = k a.
Proof. unfold obind, lift. cbn. now destruct (k a). Qed.

Lemma obind_lift_raise {A B : Type} (e : PyExn) (k : A -> Outcome B) :
  obind (lift (Raise e)) k = lift (Raise e).
Proof. reflexivity. Qed.

Lemma obind_ok {A B : Type} (out : list string) (a : A) (k : A -> Outcome B) :
  obind (mkOutcome out (Ok a)) k
  = mkOutcome (out ++ stdout (k a)) (returned (k a)).
Proof. reflexivity. Qed.

(** ** [update_image_upload] *)

Section Upload.

Variable lower : string -> string.
Variable Image : Type.
Variable save : Image -> Res string.
Variable analyze_image_in_stream : string -> Res Azure.ImageAnalysis.
Variable b64decode : string -> Res string.
Variable image_open : string -> Res Image.
Variable format_percent_1 : float -> string.
Variable float_of_int : Z -> Res float.

Local Abbreviation upload :=
  (update_image_upload lower save analyze_image_in_stream
     b64decode image_open format_percent_1 float_of_int).
Local Abbreviation upload_body :=
  (update_image_upload_body lower save analyze_image_in_stream
     b64decode image_open format_percent_1 float_of_int).

(** What the handler makes of an exception raised in the body. *)
Lemma upload_handles (s : string) (out : list string) (e : PyExn) :
  upload_body (PyStr s) = mkOutcome out (Raise e) ->
  exn_is_Exception e = true ->
  upload (PyStr s)
  = mkOutcome (out ++ ["Error: " ++ exn_str e]) (Ok (error_view e)).
Proof.
  intros Hbody Hclass. unfold update_image_upload, try_except_Exception_io.
  rewrite Hbody. cbn [returned stdout]. now rewrite Hclass.
Qed.

(** X9: a [contents] string that does not have exactly one comma never
    reaches the decoder: with no comma, or with two or more, the callback
    prints the unpacking error and returns the bare error component,
    whatever the decoder, the image reader and the classifier would do. *)
Theorem upload_needs_one_comma (s : string) :
  (str_in "," s = false ->
   upload (PyStr s)
   = mkOutcome ["Error: not enough values to unpack (expected 2, got 1)"]
       (Ok (error_view
              (ValueError "not enough values to unpack (expected 2, got 1)"))))
  /\ (forall a b c, s = a ++ "," ++ b ++ "," ++ c ->
      upload (PyStr s)
      = mkOutcome ["Error: too many values to unpack (expected 2)"]
          (Ok (error_view (ValueError "too many values to unpack (expected 2)")))).
Proof.
  split.
  - intros Hfree.
    rewrite (upload_handles s []
               (ValueError "not enough values to unpack (expected 2, got 1)"));
      [reflexivity | | reflexivity].
    unfold update_image_upload_body. cbn [py_split_comma bind].
    now rewrite (split_char_no_sep ","%char s Hfree).
  - intros a b c ->.
    rewrite (upload_handles _ []
               (ValueError "too many values to unpack (expected 2)"));
      [reflexivity | | reflexivity].
    unfold update_image_upload_body. cbn [py_split_comma bind].
    pose proof (split_char_length_app ","%char a (b ++ "," ++ c)) as Hlen.
    change (b ++ "," ++ c) with (b ++ String ","%char c) in Hlen.
    rewrite (split_char_length_app ","%char b c) in Hlen.
    pose proof (split_char_length_pos ","%char a).
    pose proof (split_char_length_pos ","%char b).
    pose proof (split_char_length_pos ","%char c).
    change (a ++ "," ++ b ++ "," ++ c)
      with (a ++ String ","%char (b ++ String ","%char c)).
    destruct (split_char ","%char (a ++ String ","%char (b ++ String ","%char c)))
      as [|x [|y [|z l]]]; simpl in Hlen; try lia.
    reflexivity.
Qed.

Lemma obind_lift_lift {A B : Type} (c : Res A) (f : A -> Res B) :
  obind (lift c) (fun x => lift (f x)) = lift (bind c f).
Proof. now destruct c. Qed.

(** A string with exactly one comma splits into what stands before the
    comma and what stands after it. *)
Lemma split_one_comma (header payload : string) :
  str_in "," header = false ->
  str_in "," payload = false ->
  split_char ","%char (header ++ "," ++ payload) = [header; payload].
Proof.
  intros Hheader Hpayload.
  change (header ++ "," ++ payload) with (header ++ String ","%char payload).
  now rewrite (split_char_at_first ","%char header payload Hheader),
              (split_char_no_sep ","%char payload Hpayload).
Qed.

(** The body on a [contents] that splits in two: the second part goes to
    the decoder, and after the classifier nothing more is printed. *)
Lemma upload_body_decodes (s content_type content_string : string) :
  split_char ","%char s = [content_type; content_string] ->
  upload_body (PyStr s)
  = (decoded <~ lift (b64decode content_string) ;;
     image <~ lift (image_open decoded) ;;
     analysis_result <~ analyze_maize_image lower save analyze_image_in_stream image ;;
     lift (success <- getitem analysis_result "success" ;;
           analysis_text <- (if truthy success
                             then success_text format_percent_1 float_of_int
                                    analysis_result
                             else failure_text analysis_result) ;;
           result_view (PyStr s) analysis_text)).
Proof.
  intros Hsplit.
  unfold update_image_upload_body. cbn [py_split_comma bind].
  rewrite Hsplit. cbn [unpack2 bind]. rewrite obind_lift_ok.
  destruct (b64decode content_string) as [decoded|e]; [|reflexivity].
  rewrite !obind_lift_ok.
  destruct (image_open decoded) as [image|e]; [|reflexivity].
  rewrite !obind_lift_ok.
  destruct (analyze_maize_image lower save analyze_image_in_stream image)
    as [out [r|e]]; [|reflexivity].
  rewrite !obind_ok. cbn beta.
  assert ((success <~ lift (getitem r "success") ;;
           analysis_text <~ lift (if truthy success
                                  then success_text format_percent_1 float_of_int r
                                  else failure_text r) ;;
           lift (result_view (PyStr s) analysis_text))
          = lift (success <- getitem r "success" ;;
                  analysis_text <- (if truthy success
                                    then success_text format_percent_1 float_of_int r
                                    else failure_text r) ;;
                  result_view (PyStr s) analysis_text))
    as ->.
  { destruct (getitem r "success") as [success|e]; [|reflexivity].
    rewrite obind_lift_ok. cbn [bind]. apply obind_lift_lift. }
  cbn [lift stdout returned]. now rewrite app_nil_r.
Qed.

Lemma upload_returns (s : string) (out : list string) (view : Component) :
  upload_body (PyStr s) = mkOutcome out (Ok view) ->
  upload (PyStr s) = mkOutcome out (Ok view).
Proof.
  intros Hbody. unfold update_image_upload, try_except_Exception_io.
  now rewrite Hbody.
Qed.

(** X10: with exactly one comma in [contents], what follows the comma is
    what is decoded; when the decoder or the image reader raises, the
    callback prints the error and returns the bare error component, and the
    classifier is not run. *)
Theorem upload_reports_unreadable_image (header payload : string) (e : PyExn) :
  str_in "," header = false ->
  str_in "," payload = false ->
  b64decode payload = Raise e
  \/ (exists decoded, b64decode payload = Ok decoded
                      /\ image_open decoded = Raise e) ->
  exn_is_Exception e = true ->
  upload (PyStr (header ++ "," ++ payload))
  = mkOutcome ["Error: " ++ exn_str e] (Ok (error_view e)).
Proof.
  intros Hheader Hpayload Hraise Hclass.
  rewrite (upload_handles _ [] e); [reflexivity | | exact Hclass].
  rewrite (upload_body_decodes _ header payload
             (split_one_comma header payload Hheader Hpayload)).
  destruct Hraise as [Hdecode | [decoded [Hdecode Hopen]]].
  - now rewrite Hdecode.
  - now rewrite Hdecode, obind_lift_ok, Hopen.
Qed.

Lemma analyze_maize_image_caught (image : Image) (e : PyExn) :
  save image = Raise e
  \/ (exists bytes, save image = Ok bytes
                    /\ analyze_image_in_stream bytes = Raise e) ->
  exn_is_Exception e = true ->
  analyze_maize_image lower save analyze_image_in_stream image
  = mkOutcome ["Error analyzing image: " ++ exn_str e]
      (Ok [("success", PyBool false); ("error", PyStr (exn_str e))]).
Proof.
  intros Hraise Hclass. unfold analyze_maize_image, try_except_Exception.
  now rewrite (analyze_maize_image_raise lower Image save analyze_image_in_stream
                 image e Hraise), Hclass.
Qed.

Lemma str_items_map (i : nat) (l : list string) :
  str_items i (map PyStr l) = Ok l.
Proof.
  revert i; induction l as [|x l IH]; intros i; simpl; [reflexivity|].
  now rewrite IH.
Qed.

(** The lines made of a dictionary of the successful shape. *)
Lemma success_text_ok (label color descr raw : string) (conf : float)
      (tags : list string) :
  dict_get label status_colors = Some color ->
  success_text format_percent_1 float_of_int
    [ ("success", PyBool true);
      ("health_status", PyStr label);
      ("confidence", PyFloat conf);
      ("description", PyStr descr);
      ("tags", PyList (map PyStr tags));
      ("raw_description", PyStr raw) ]
  = Ok [ Html "Div"
           (CList [ Html "Strong" (CVal (PyStr "Health Status: ")) []
                         [("color", "#00ff9d")];
                    Html "Span" (CVal (PyStr label)) []
                         [("color", color); ("fontWeight", "bold")] ]) [] [];
         Html "Div"
           (CList [ Html "Strong" (CVal (PyStr "Confidence: ")) []
                         [("color", "#00ff9d")];
                    Html "Span" (CVal (PyStr (format_percent_1 conf))) [] [] ]) [] [];
         Html "Div"
           (CList [ Html "Strong" (CVal (PyStr "Analysis: ")) []
                         [("color", "#00ff9d")];
                    Html "Span" (CVal (PyStr descr)) [] [] ]) [] [];
         Html "Div"
           (CList [ Html "Strong" (CVal (PyStr "Detected Features: ")) []
                         [("color", "#00ff9d")];
                    Html "Span" (CVal (PyStr (join ", " tags))) [] [] ]) [] [] ].
Proof.
  intros Hcolor. unfold success_text, accent_label, getitem.
  cbn [dict_get String.eqb Ascii.eqb Bool.eqb CUSTOM_STYLE bind dict_get_or
       py_format_percent_1 py_join].
  rewrite Hcolor, str_items_map. reflexivity.
Qed.

(** X11: when the classifier reports a failure, the callback shows it
    inside the usual view, under the uploaded image: one line "Error: "
    with the message; the only line printed is the classifier's. *)
Theorem upload_shows_classifier_failure (header payload decoded : string)
        (image : Image) (e : PyExn) :
  str_in "," header = false ->
  str_in "," payload = false ->
  b64decode payload = Ok decoded ->
  image_open decoded = Ok image ->
  save image = Raise e
  \/ (exists bytes, save image = Ok bytes
                    /\ analyze_image_in_stream bytes = Raise e) ->
  exn_is_Exception e = true ->
  exists view,
    result_view (PyStr (header ++ "," ++ payload))
      [ Html "Div"
          (CList [ Html "Strong" (CVal (PyStr "Error: ")) [] [("color", "#ff0000")];
                   Html "Span" (CVal (PyStr (exn_str e))) [] [] ]) [] [] ]
    = Ok view
    /\ upload (PyStr (header ++ "," ++ payload))
       = mkOutcome ["Error analyzing image: " ++ exn_str e] (Ok view).
Proof.
  intros Hheader Hpayload Hdecode Hopen Hraise Hclass.
  eexists. split; [reflexivity|].
  apply upload_returns.
  rewrite (upload_body_decodes _ header payload
             (split_one_comma header payload Hheader Hpayload)).
  rewrite Hdecode, obind_lift_ok, Hopen, obind_lift_ok.
  rewrite (analyze_maize_image_caught image e Hraise Hclass).
  reflexivity.
Qed.

(** X12: when the classifier succeeds, the callback returns the usual view
    with four lines: the label in the colour that [status_colors] gives it
    (the fallback colour is never used), the confidence 0.99 formatted as a
    percentage, the description, and the lowercased tags joined with ", ";
    nothing is printed. *)
Theorem upload_shows_verdict (header payload decoded bytes : string)
        (image : Image) (analysis : Azure.ImageAnalysis) :
  str_in "," header = false ->
  str_in "," payload = false ->
  b64decode payload = Ok decoded ->
  image_open decoded = Ok image ->
  save image = Ok bytes ->
  analyze_image_in_stream bytes = Ok analysis ->
  exists label color view,
    classify (text_to_check_of lower analysis) = Ok (label, 0.99%float)
    /\ dict_get label status_colors = Some color
    /\ result_view (PyStr (header ++ "," ++ payload))
         [ Html "Div"
             (CList [ Html "Strong" (CVal (PyStr "Health Status: ")) []
                           [("color", "#00ff9d")];
                      Html "Span" (CVal (PyStr label)) []
                           [("color", color); ("fontWeight", "bold")] ]) [] [];
           Html "Div"
             (CList [ Html "Strong" (CVal (PyStr "Confidence: ")) []
                           [("color", "#00ff9d")];
                      Html "Span" (CVal (PyStr (format_percent_1 0.99%float))) [] [] ])
             [] [];
           Html "Div"
             (CList [ Html "Strong" (CVal (PyStr "Analysis: ")) []
                           [("color", "#00ff9d")];
                      Html "Span"
                        (CVal (PyStr ("Leaf appears to be " ++ lower label))) [] [] ])
             [] [];
           Html "Div"
             (CList [ Html "Strong" (CVal (PyStr "Detected Features: ")) []
                           [("color", "#00ff9d")];
                      Html "Span" (CVal (PyStr (join ", " (tags_of lower analysis))))
                           [] [] ]) [] [] ]
       = Ok view
    /\ upload (PyStr (header ++ "," ++ payload)) = mkOutcome [] (Ok view).
Proof.
  intros Hheader Hpayload Hdecode Hopen Hsave Hcall.
  pose proof (classify_eq (text_to_check_of lower analysis)) as Hclass.
  assert (exists label color,
             classify (text_to_check_of lower analysis) = Ok (label, 0.99%float)
             /\ dict_get label status_colors = Some color) as [label [color [Hl Hc]]].
  { rewrite Hclass.
    destruct (any_in _ _); [|destruct (any_in _ _)];
      do 2 eexists; (split; [reflexivity|]); reflexivity. }
  exists label, color. eexists. split; [exact Hl|]. split; [exact Hc|].
  split; [reflexivity|].
  apply upload_returns.
  rewrite (upload_body_decodes _ header payload
             (split_one_comma header payload Hheader Hpayload)).
  rewrite Hdecode, obind_lift_ok, Hopen, obind_lift_ok.
  rewrite (analyze_maize_image_ok lower Image save analyze_image_in_stream
             image bytes analysis label _ Hsave Hcall Hl).
  rewrite obind_ok. cbn beta.
  unfold getitem at 1. cbn [dict_get String.eqb Ascii.eqb Bool.eqb bind truthy].
  rewrite (success_text_ok label color _ _ _ _ Hc).
  reflexivity.
Qed.

(** Whatever the classifier returns can be shown. *)
Lemma analysis_always_renders (contents : PyVal) (image : Image) :
  (forall x e, save x = Raise e -> exn_is_Exception e = true) ->
  (forall x e, analyze_image_in_stream x = Raise e -> exn_is_Exception e = true) ->
  exists out view,
    (analysis_result <~ analyze_maize_image lower save analyze_image_in_stream image ;;
     lift (success <- getitem analysis_result "success" ;;
           analysis_text <- (if truthy success
                             then success_text format_percent_1 float_of_int
                                    analysis_result
                             else failure_text analysis_result) ;;
           result_view contents analysis_text))
    = mkOutcome out (Ok view).
Proof.
  intros Hsave Hcall.
  destruct (save image) as [bytes|e] eqn:Es.
  - destruct (analyze_image_in_stream bytes) as [analysis|e] eqn:Ec.
    + pose proof (classify_eq (text_to_check_of lower analysis)) as Hclass.
      assert (exists label color,
                 classify (text_to_check_of lower analysis) = Ok (label, 0.99%float)
                 /\ dict_get label status_colors = Some color)
        as [label [color [Hl Hc]]].
      { rewrite Hclass.
        destruct (any_in _ _); [|destruct (any_in _ _)];
          do 2 eexists; (split; [reflexivity|]); reflexivity. }
      rewrite (analyze_maize_image_ok lower Image save analyze_image_in_stream
                 image bytes analysis label _ Es Ec Hl).
      rewrite obind_ok. cbn beta.
      unfold getitem at 1. cbn [dict_get String.eqb Ascii.eqb Bool.eqb bind truthy].
      rewrite (success_text_ok label color _ _ _ _ Hc).
      do 2 eexists. reflexivity.
    + rewrite (analyze_maize_image_caught image e); [| |exact (Hcall bytes e Ec)].
      * do 2 eexists. reflexivity.
      * right. now exists bytes.
  - rewrite (analyze_maize_image_caught image e); [| |exact (Hsave image e Es)].
    + do 2 eexists. reflexivity.
    + now left.
Qed.

(** X13: the callback raises for one input only, the missing upload: for
    [None] it raises [PreventUpdate], outside the [try]; for every other
    [contents] it returns a component, provided the decoder, the image
    reader, the encoder and the service raise nothing but exceptions
    derived from [Exception]. *)
Theorem upload_raises_only_without_upload (contents : PyVal) :
  (forall x e, b64decode x = Raise e -> exn_is_Exception e = true) ->
  (forall x e, image_open x = Raise e -> exn_is_Exception e = true) ->
  (forall x e, save x = Raise e -> exn_is_Exception e = true) ->
  (forall x e, analyze_image_in_stream x = Raise e -> exn_is_Exception e = true) ->
  (contents = PyNone /\ upload contents = mkOutcome [] (Raise PreventUpdate))
  \/ (contents <> PyNone /\ exists view, returned (upload contents) = Ok view).
Proof.
  intros Hdecode Hopen Hsave Hcall.
  destruct contents;
    try (right; split; [discriminate | eexists; reflexivity]);
    [left; now split|].
  right. split; [discriminate|].
  assert (forall out e, upload_body (PyStr s) = mkOutcome out (Raise e) ->
                        exn_is_Exception e = true ->
                        exists view, returned (upload (PyStr s)) = Ok view) as Hcaught.
  { intros out e Hbody Hclass. rewrite (upload_handles s out e Hbody Hclass).
    now eexists. }
  destruct (split_char ","%char s) as [|x [|y [|z l]]] eqn:Hsplit.
  - apply (Hcaught [] (ValueError "not enough values to unpack (expected 2, got 0)"));
      [|reflexivity].
    unfold update_image_upload_body. cbn [py_split_comma bind]. now rewrite Hsplit.
  - apply (Hcaught [] (ValueError "not enough values to unpack (expected 2, got 1)"));
      [|reflexivity].
    unfold update_image_upload_body. cbn [py_split_comma bind]. now rewrite Hsplit.
  - pose proof (upload_body_decodes s x y Hsplit) as Hbody.
    destruct (b64decode y) as [decoded|e] eqn:Ed.
    + rewrite obind_lift_ok in Hbody.
      destruct (image_open decoded) as [image|e] eqn:Eo.
      * rewrite obind_lift_ok in Hbody.
        destruct (analysis_always_renders (PyStr s) image Hsave Hcall)
          as [out [view Hview]].
        rewrite Hview in Hbody. rewrite (upload_returns s out view Hbody).
        now exists view.
      * exact (Hcaught [] e Hbody (Hopen decoded e Eo)).
    + exact (Hcaught [] e Hbody (Hdecode y e Ed)).
  - apply (Hcaught [] (ValueError "too many values to unpack (expected 2)"));
      [|reflexivity].
    unfold update_image_upload_body. cbn [py_split_comma bind]. now rewrite Hsplit.
Qed.

End Upload.

Lemma upload_needs_one_comma_witness :
  update_image_upload ascii_lower encoder_ok (service_returning green_leaf)
    decoder_ok reader_ok percent_of float_of_small_int (PyStr "AAAA")
  = mkOutcome ["Error: not enough values to unpack (expected 2, got 1)"]
      (Ok (error_view (ValueError "not enough values to unpack (expected 2, got 1)")))
  /\ update_image_upload ascii_lower encoder_ok (service_returning green_leaf)
       decoder_ok reader_ok percent_of float_of_small_int
       (PyStr "data:image/png,charset=utf-8;base64,AAAA")
     = mkOutcome ["Error: too many values to unpack (expected 2)"]
         (Ok (error_view (ValueError "too many values to unpack (expected 2)"))).
Proof.
  split.
  - apply (proj1 (upload_needs_one_comma ascii_lower string encoder_ok
                    (service_returning green_leaf) decoder_ok reader_ok
                    percent_of float_of_small_int "AAAA")).
    reflexivity.
  - apply (proj2 (upload_needs_one_comma ascii_lower string encoder_ok
                    (service_returning green_leaf) decoder_ok reader_ok
                    percent_of float_of_small_int
                    "data:image/png,charset=utf-8;base64,AAAA")
             "data:image/png" "charset=utf-8;base64" "AAAA").
    reflexivity.
Defined.

Lemma upload_reports_unreadable_image_witness :
  update_image_upload ascii_lower encoder_ok (service_returning green_leaf)
    decoder_ok (reader_failing cannot_identify) percent_of float_of_small_int
    (PyStr "data:text/plain;base64,aGVsbG8=")
  = mkOutcome ["Error: cannot identify image file"] (Ok (error_view cannot_identify)).
Proof.
  apply (upload_reports_unreadable_image ascii_lower string encoder_ok
           (service_returning green_leaf) decoder_ok (reader_failing cannot_identify)
           percent_of float_of_small_int "data:text/plain;base64" "aGVsbG8="
           cannot_identify).
  - reflexivity.
  - reflexivity.
  - right. exists "aGVsbG8=". split; reflexivity.
  - reflexivity.
Defined.

Lemma upload_shows_classifier_failure_witness :
  exists view,
    result_view (PyStr "data:image/jpeg;base64,AAAA")
      [ Html "Div"
          (CList [ Html "Strong" (CVal (PyStr "Error: ")) [] [("color", "#ff0000")];
                   Html "Span" (CVal (PyStr (exn_str invalid_credential))) [] [] ])
          [] [] ]
    = Ok view
    /\ update_image_upload ascii_lower encoder_ok (service_failing invalid_credential)
         decoder_ok reader_ok percent_of float_of_small_int
         (PyStr "data:image/jpeg;base64,AAAA")
       = mkOutcome ["Error analyzing image: " ++ exn_str invalid_credential] (Ok view).
Proof.
  apply (upload_shows_classifier_failure ascii_lower string encoder_ok
           (service_failing invalid_credential) decoder_ok reader_ok
           percent_of float_of_small_int "data:image/jpeg;base64" "AAAA" "AAAA" "AAAA"
           invalid_credential); try reflexivity.
  right. exists "AAAA". split; reflexivity.
Defined.

Lemma upload_shows_verdict_witness :
  exists view,
    update_image_upload ascii_lower encoder_ok (service_returning brown_lesions)
      decoder_ok reader_ok percent_of float_of_small_int
      (PyStr "data:image/jpeg;base64,AAAA")
    = mkOutcome [] (Ok view)
    /\ result_view (PyStr "data:image/jpeg;base64,AAAA")
         [ Html "Div"
             (CList [ Html "Strong" (CVal (PyStr "Health Status: ")) []
                           [("color", "#00ff9d")];
                      Html "Span" (CVal (PyStr "Spotted")) []
                           [("color", "#ffae00"); ("fontWeight", "bold")] ]) [] [];
           Html "Div"
             (CList [ Html "Strong" (CVal (PyStr "Confidence: ")) []
                           [("color", "#00ff9d")];
                      Html "Span" (CVal (PyStr "99.0%")) [] [] ]) [] [];
           Html "Div"
             (CList [ Html "Strong" (CVal (PyStr "Analysis: ")) []
                           [("color", "#00ff9d")];
                      Html "Span" (CVal (PyStr "Leaf appears to be spotted")) [] [] ])
             [] [];
           Html "Div"
             (CList [ Html "Strong" (CVal (PyStr "Detected Features: ")) []
                           [("color", "#00ff9d")];
                      Html "Span" (CVal (PyStr "plant, brown")) [] [] ]) [] [] ]
       = Ok view.
Proof.
  destruct (upload_shows_verdict ascii_lower string encoder_ok
              (service_returning brown_lesions) decoder_ok reader_ok
              percent_of float_of_small_int
              "data:image/jpeg;base64" "AAAA" "AAAA" "AAAA" "AAAA" brown_lesions
              eq_refl eq_refl eq_refl eq_refl eq_refl eq_refl)
    as [label [color [view [Hlabel [Hcolor [Hview Hrun]]]]]].
  vm_compute in Hlabel. injection Hlabel as <-.
  vm_compute in Hcolor. injection Hcolor as <-.
  exists view. split; [exact Hrun | exact Hview].
Defined.

Lemma upload_raises_only_without_upload_witness :
  exists view,
    returned (update_image_upload ascii_lower encoder_ok
                (service_failing invalid_credential) decoder_ok
                (reader_failing cannot_identify) percent_of float_of_small_int
                (PyInt 7)) = Ok view.
Proof.
  destruct (upload_raises_only_without_upload ascii_lower string encoder_ok
              (service_failing invalid_credential) decoder_ok
              (reader_failing cannot_identify) percent_of float_of_small_int
              (PyInt 7)) as [[Hnone _] | [_ Hview]].
  - intros x e H. discriminate.
  - intros x e H. injection H as <-. reflexivity.
  - intros x e H. discriminate.
  - intros x e H. injection H as <-. reflexivity.
  - discriminate.
  - exact Hview.
Defined.

(** ** [update_chat] *)

Lemma get_rag_response_returns (lower : string -> string) (msg ctx : PyVal) :
  exists out answer,
    get_rag_response lower msg ctx = mkOutcome out (Ok answer).
Proof.
  destruct msg; try (do 2 eexists; reflexivity).
  unfold get_rag_response. rewrite get_rag_response_body_str.
  do 2 eexists. reflexivity.
Qed.

Lemma chat_entry_ok (speaker : string) (said : PyVal) :
  chat_entry speaker said
  = Ok (Html "Div"
          (CList [ Html "Span" (CVal (PyStr speaker)) []
                        [("color", "#00ff9d"); ("fontWeight", "bold")];
                   Html "Span" (CVal said) [] [] ])
          []
          [("marginBottom", "10px")]).
Proof. reflexivity. Qed.

(** X14: an update of the chat appends exactly one exchange to the history
    it was given (the empty one for [None]): the entry of the user, with the
    input as typed, then the entry of the assistant with the answer of
    [get_rag_response]; the earlier entries stay as they were, the input box
    is cleared, and what is printed is what [get_rag_response] prints. *)
Theorem chat_appends_one_exchange (lower : string -> string) (triggered : list PyVal)
        (n_clicks n_submit input_value : PyVal) (chat_history : option (list Component)) :
  triggered <> [] ->
  truthy input_value = true ->
  exists out answer,
    (forall ctx, get_rag_response lower input_value ctx = mkOutcome out (Ok answer))
    /\ update_chat lower triggered n_clicks n_submit input_value chat_history
       = mkOutcome out
           (Ok ((match chat_history with Some history => history | None => [] end)
                ++ [ Html "Div"
                       (CList [ Html "Span" (CVal (PyStr "You: ")) []
                                     [("color", "#00ff9d"); ("fontWeight", "bold")];
                                Html "Span" (CVal input_value) [] [] ])
                       [] [("marginBottom", "10px")];
                     Html "Div"
                       (CList [ Html "Span" (CVal (PyStr "Farm Assistant: ")) []
                                     [("color", "#00ff9d"); ("fontWeight", "bold")];
                                Html "Span" (CVal (PyStr answer)) [] [] ])
                       [] [("marginBottom", "10px")] ],
                "")%list).
Proof.
  intros Htriggered Hinput.
  destruct (get_rag_response_returns lower input_value PyNone) as [out [answer Hanswer]].
  exists out, answer. split; [intros ctx; exact Hanswer|].
  unfold update_chat.
  destruct triggered as [|t triggered]; [congruence|].
  cbn [truthy negb orb]. rewrite Hinput. cbn [negb].
  rewrite chat_entry_ok, obind_lift_ok.
  change (get_rag_response lower input_value _)
    with (get_rag_response lower input_value PyNone).
  rewrite Hanswer, obind_ok. cbn beta.
  rewrite chat_entry_ok, obind_lift_ok. cbn [ret stdout returned].
  now rewrite app_nil_r, <- app_assoc.
Qed.

Lemma chat_appends_one_exchange_witness :
  update_chat ascii_lower [PyDict [("prop_id", PyStr "chat-button.n_clicks")]]
    (PyInt 1) PyNone (PyStr "Water?")
    (Some [Html "Div" (CVal (PyStr "earlier")) [] []])
  = mkOutcome []
      (Ok ([ Html "Div" (CVal (PyStr "earlier")) [] [];
             Html "Div"
               (CList [ Html "Span" (CVal (PyStr "You: ")) []
                             [("color", "#00ff9d"); ("fontWeight", "bold")];
                        Html "Span" (CVal (PyStr "Water?")) [] [] ])
               [] [("marginBottom", "10px")];
             Html "Div"
               (CList [ Html "Span" (CVal (PyStr "Farm Assistant: ")) []
                             [("color", "#00ff9d"); ("fontWeight", "bold")];
                        Html "Span" (CVal (PyStr water_sentence)) [] [] ])
               [] [("marginBottom", "10px")] ],
           "")).
Proof.
  destruct (chat_appends_one_exchange ascii_lower
              [PyDict [("prop_id", PyStr "chat-button.n_clicks")]]
              (PyInt 1) PyNone (PyStr "Water?")
              (Some [Html "Div" (CVal (PyStr "earlier")) [] []]))
    as [out [answer [Hanswer Hchat]]].
  - discriminate.
  - reflexivity.
  - specialize (Hanswer PyNone). vm_compute in Hanswer.
    injection Hanswer as <- <-. exact Hchat.
Defined.


